(** * Session handling with bind-DN forwarding (handler_holding_binddn.go)

    A shallow embedding of [handleConnectionAndSendBindDn],
    [judgeBindDnIsEmpty], [makeBindDnRequest] and [sendBindDnRequest],
    and the properties of the per-connection state machine. *)

From Stdlib Require Import ZArith List Bool Lia.
From Stdlib Require Import Strings.String Strings.Ascii Strings.Byte.
Import ListNotations.

Local Open Scope string_scope.
Local Open Scope Z_scope.
Local Open Scope list_scope.

(** ** The asn1-ber package (import [ber])

    The packet tree, the class / type / tag constants and the name tables
    of the BER package the handler imports.  The serialisation itself
    ([Bytes], [encodeInteger]) belongs to the codec and stays abstract. *)
Module ber.

Definition ClassUniversal : Z := 0.
Definition ClassApplication : Z := 64.
Definition ClassContext : Z := 128.
Definition ClassPrivate : Z := 192.

Definition TypePrimitive : Z := 0.
Definition TypeConstructed : Z := 32.

Definition TagEOC : Z := 0.
Definition TagBoolean : Z := 1.
Definition TagInteger : Z := 2.
Definition TagBitString : Z := 3.
Definition TagOctetString : Z := 4.
Definition TagNULL : Z := 5.
Definition TagObjectIdentifier : Z := 6.
Definition TagObjectDescriptor : Z := 7.
Definition TagExternal : Z := 8.
Definition TagRealFloat : Z := 9.
Definition TagEnumerated : Z := 10.
Definition TagEmbeddedPDV : Z := 11.
Definition TagUTF8String : Z := 12.
Definition TagRelativeOID : Z := 13.
Definition TagSequence : Z := 16.
Definition TagSet : Z := 17.
Definition TagNumericString : Z := 18.
Definition TagPrintableString : Z := 19.
Definition TagT61String : Z := 20.
Definition TagVideotexString : Z := 21.
Definition TagIA5String : Z := 22.
Definition TagUTCTime : Z := 23.
Definition TagGeneralizedTime : Z := 24.
Definition TagGraphicString : Z := 25.
Definition TagVisibleString : Z := 26.
Definition TagGeneralString : Z := 27.
Definition TagUniversalString : Z := 28.
Definition TagCharacterString : Z := 29.
Definition TagBMPString : Z := 30.

(** A Go map read at a missing key yields the zero value, here the
    empty string. *)
Definition ClassMap (c : Z) : string :=
  match c with
  | 0 => "Universal"
  | 64 => "Application"
  | 128 => "Context"
  | 192 => "Private"
  | _ => EmptyString
  end.

Definition TypeMap (t : Z) : string :=
  match t with
  | 0 => "Primative"
  | 32 => "Constructed"
  | _ => EmptyString
  end.

Definition TagMap (t : Z) : string :=
  match t with
  | 0 => "EOC (End-of-Content)"
  | 1 => "Boolean"
  | 2 => "Integer"
  | 3 => "Bit String"
  | 4 => "Octet String"
  | 5 => "NULL"
  | 6 => "Object Identifier"
  | 7 => "Object Descriptor"
  | 8 => "External"
  | 9 => "Real (float)"
  | 10 => "Enumerated"
  | 11 => "Embedded PDV"
  | 12 => "UTF8 String"
  | 13 => "Relative-OID"
  | 16 => "Sequence and Sequence of"
  | 17 => "Set and Set OF"
  | 18 => "Numeric String"
  | 19 => "Printable String"
  | 20 => "T61 String"
  | 21 => "Videotex String"
  | 22 => "IA5 String"
  | 23 => "UTC Time"
  | 24 => "Generalized Time"
  | 25 => "Graphic String"
  | 26 => "Visible String"
  | 27 => "General String"
  | 28 => "Universal String"
  | 29 => "Character String"
  | 30 => "BMP String"
  | _ => EmptyString
  end.

(** The dynamic type of [Packet.Value] (a Go [interface{}]). *)
Inductive Any : Type :=
| VNil
| VBool (b : bool)
| VInt (n : Z)
| VUint64 (n : Z)
| VString (s : string).

(** [Packet]: the uint8 fields are integers in [0, 256); [Data] is the
    content of the packet's byte buffer. *)
#[warnings="-register-all"]
Inductive Packet : Type := mkPacket {
  ClassType : Z;
  TagType : Z;
  Tag : Z;
  Value : Any;
  Data : list byte;
  Children : list Packet;
  Description : string
}.

(** [v.(uint64)] and [v.(string)] in their two-result form: the zero
    value and [false] when the dynamic type differs. *)
Definition assertUint64 (v : Any) : Z * bool :=
  match v with VUint64 n => (n, true) | _ => (0, false) end.

Definition assertString (v : Any) : string * bool :=
  match v with VString s => (s, true) | _ => (EmptyString, false) end.

(** [Encode] with a nil value: an empty buffer and no children. *)
Definition Encode (class type tag : Z) (description : string) : Packet :=
  mkPacket class type tag VNil [] [] description.

Section Codec.
(** The serialisation of the codec. *)
Variable encodeInteger : Z -> list byte.
Variable Bytes : Packet -> list byte.

Definition NewInteger (class type tag : Z) (value : Any)
    (description : string) : Packet :=
  let p := Encode class type tag description in
  let data :=
    match value with
    | VInt n | VUint64 n => encodeInteger n
    | _ => []
    end in
  mkPacket (ClassType p) (TagType p) (Tag p) value (Data p ++ data)
           (Children p) (Description p).

Definition NewString (class type tag : Z) (value description : string)
    : Packet :=
  let p := Encode class type tag description in
  mkPacket (ClassType p) (TagType p) (Tag p) (VString value)
           (Data p ++ list_byte_of_string value)
           (Children p) (Description p).

Definition AppendChild (p child : Packet) : Packet :=
  mkPacket (ClassType p) (TagType p) (Tag p) (Value p)
           (Data p ++ Bytes child)
           (Children p ++ [child]) (Description p).
End Codec.

(** Every node of a packet tree, the root first. *)
Fixpoint nodes (p : Packet) : list Packet :=
  p :: flat_map nodes (Children p).

(** Induction over packet trees with the hypothesis on every child. *)
Fixpoint Packet_tree_ind (P : Packet -> Prop)
    (step : forall p, Forall P (Children p) -> P p) (p : Packet) : P p :=
  step p
    (match p as q return Forall P (Children q) with
     | mkPacket _ _ _ _ _ cs _ =>
         (fix go (l : list Packet) : Forall P l :=
            match l with
            | [] => Forall_nil P
            | c :: l' => Forall_cons c (Packet_tree_ind P step c) (go l')
            end) cs
     end).

End ber.

Import ber.

(** ** fmt.Sprintf("0x%02X", tag) for a uint8 tag *)
Definition hexDigit (d : Z) : ascii :=
  match d with
  | 0 => "0" | 1 => "1" | 2 => "2" | 3 => "3" | 4 => "4" | 5 => "5"
  | 6 => "6" | 7 => "7" | 8 => "8" | 9 => "9" | 10 => "A" | 11 => "B"
  | 12 => "C" | 13 => "D" | 14 => "E" | _ => "F"
  end%char.

Definition Sprintf_0x02X (t : Z) : string :=
  String "0" (String "x"
    (String (hexDigit (Z.shiftr t 4))
       (String (hexDigit (Z.land t 15)) EmptyString))).

(** ** judgeBindDnIsEmpty

    [result] is the source's [*bool]: the function returns the value the
    pointer holds afterwards. *)
Fixpoint judgeBindDnIsEmpty (p : Packet) (result : bool) : bool :=
  let class := ClassMap (ClassType p) in
  let tagtype := TypeMap (TagType p) in
  let tag := if ClassType p =? ClassUniversal
             then TagMap (Tag p) else Sprintf_0x02X (Tag p) in
  let result :=
    if (class =? "Universal")%string &&
       (tagtype =? "Primative")%string &&
       (tag =? "Octet String")%string &&
       (Z.of_nat (List.length (Data p)) =? 0)
    then true else result in
  fold_left (fun r child => judgeBindDnIsEmpty child r) (Children p) result.


(** ** The predicate evaluator *)

(** The node the specification describes, stated on the fields: universal
    class, primitive type, octet-string tag, zero-length content.  It is
    compared below with the test [judgeBindDnIsEmpty] makes on names. *)
Definition emptyOctetString (n : Packet) : Prop :=
  ClassType n = ClassUniversal /\ TagType n = TypePrimitive /\
  Tag n = TagOctetString /\ List.length (Data n) = 0%nat.

Definition emptyOctetStringb (n : Packet) : bool :=
  (ClassType n =? ClassUniversal) && (TagType n =? TypePrimitive) &&
  (Tag n =? TagOctetString) && (Nat.eqb (List.length (Data n)) 0).

(** ** The LDAP package around the handler

    The operation tags, result codes and result-code names are declared
    in a file of the package that is not part of this development; they
    are taken as parameters.  The cases of a Go [switch] on constants are
    pairwise distinct (the compiler refuses duplicates), which is the
    hypothesis [request_tags_distinct] of the theorems that need it. *)
Class LdapConstants : Type := {
  ApplicationBindRequest : Z;
  ApplicationUnbindRequest : Z;
  ApplicationSearchRequest : Z;
  ApplicationModifyRequest : Z;
  ApplicationModifyResponse : Z;
  ApplicationAddRequest : Z;
  ApplicationAddResponse : Z;
  ApplicationDelRequest : Z;
  ApplicationDelResponse : Z;
  ApplicationModifyDNRequest : Z;
  ApplicationModifyDNResponse : Z;
  ApplicationCompareRequest : Z;
  ApplicationCompareResponse : Z;
  ApplicationAbandonRequest : Z;
  ApplicationExtendedRequest : Z;
  ApplicationExtendedResponse : Z;
  LDAPResultSuccess : Z;
  LDAPResultOperationsError : Z;
  LDAPResultCodeMap : Z -> string
}.

(** The request tags in the order of the [switch]. *)
Definition request_tags `{LdapConstants} : list Z :=
  [ApplicationBindRequest; ApplicationSearchRequest; ApplicationUnbindRequest;
   ApplicationExtendedRequest; ApplicationAbandonRequest; ApplicationAddRequest;
   ApplicationModifyRequest; ApplicationDelRequest; ApplicationModifyDNRequest;
   ApplicationCompareRequest].

Definition request_tags_distinct `{LdapConstants} : Prop := NoDup request_tags.

(** A Go [error] returned by the search chain: the package's own
    error type with its result code, or an error of another dynamic type. *)
Inductive GoError : Type :=
| LdapError (ResultCode : Z)
| ForeignError.

(** The handler chains with a result code and a bound DN argument. *)
Inductive Chain : Type :=
| ExtendedChain | AddChain | ModifyChain | DeleteChain | ModifyDNChain
| CompareChain.

(** Who submitted a bind request to the bind chain: the session loop, for
    a request read from the wire, or [sendBindDnRequest]. *)
Inductive Origin : Type := Wire | Synthetic.

(** What [ber.ReadPacket] returns. *)
Inductive ReadResult : Type :=
| ReadPacket (packet : Packet)
| ReadEOF
| ReadFailure.

(** What the loop calls.  [W] is the state of everything outside the
    loop (the handlers' stores, the transport, the counters): each call
    takes it and returns the next one with its result.  [Conn] is the
    connection handle, [Control] a decoded control, [Closer] a close
    collaborator.  The [Fns] maps of the server are part of the handlers;
    [BindDn] and [BindPass] are the variables of package ldaplib. *)
Class Collaborators (W Conn Control Closer : Type) : Type := {
  encodeInteger : Z -> list byte;
  Bytes : Packet -> list byte;
  DecodeControl : Packet -> Control;
  encodeLDAPResponse : Z -> Z -> Z -> string -> Packet;
  encodeBindResponse : Z -> Z -> Packet;
  encodeSearchDone : Z -> Z -> Packet;
  sendPacket : Conn -> Packet -> W -> bool * W;
  HandleBindRequest : Packet -> Conn -> W -> Z * W;
  HandleSearchRequest :
    Packet -> list Control -> Z -> string -> Conn -> W -> option GoError * W;
  HandleExtendedRequest : Packet -> string -> Conn -> W -> Z * W;
  HandleAbandonRequest : Packet -> string -> Conn -> W -> W;
  HandleAddRequest : Packet -> string -> Conn -> W -> Z * W;
  HandleModifyRequest : Packet -> string -> Conn -> W -> Z * W;
  HandleDeleteRequest : Packet -> string -> Conn -> W -> Z * W;
  HandleModifyDNRequest : Packet -> string -> Conn -> W -> Z * W;
  HandleCompareRequest : Packet -> string -> Conn -> W -> Z * W;
  countBinds : Z -> W -> W;
  countSearches : Z -> W -> W;
  countUnbinds : Z -> W -> W;
  CloseFns : list Closer;
  Close : Closer -> string -> Conn -> W -> W;
  connClose : Conn -> W -> W;
  BindDn : string;
  BindPass : string
}.

(** The result of a computation: a value, or a run-time panic. *)
Inductive Res (A : Type) : Type :=
| Ok (a : A)
| Panicked.
Arguments Ok {A} a.
Arguments Panicked {A}.

Section Session.

Context {W Conn Control Closer : Type}.
Context {K : LdapConstants} {E : Collaborators W Conn Control Closer}.

(** The calls the session makes, in order. *)
Inductive Event : Type :=
| EvCountBinds (delta : Z)
| EvCountSearches (delta : Z)
| EvCountUnbinds (delta : Z)
| EvBind (o : Origin) (req : Packet) (conn : Conn) (code : Z)
| EvSearch (req : Packet) (controls : list Control) (messageID : Z)
    (boundDN : string) (conn : Conn) (err : option GoError)
| EvAbandon (req : Packet) (boundDN : string) (conn : Conn)
| EvChain (c : Chain) (req : Packet) (boundDN : string) (conn : Conn)
    (code : Z)
| EvSend (conn : Conn) (packet : Packet) (failed : bool)
| EvClose (c : Closer) (boundDN : string) (conn : Conn)
| EvConnClose (conn : Conn).

(** *** A state, trace and panic monad

    A computation takes the outside state and returns its result, with
    the next outside state and the calls it made. *)

Definition M (A : Type) : Type := W -> Res A * W * list Event.

Definition ret {A : Type} (a : A) : M A := fun w => (Ok a, w, []).

Definition panic {A : Type} : M A := fun w => (Panicked, w, []).

Definition bind {A B : Type} (m : M A) (f : A -> M B) : M B :=
  fun w =>
    match m w with
    | (Ok a, w1, e1) =>
        match f a w1 with
        | (r, w2, e2) => (r, w2, e1 ++ e2)
        end
    | (Panicked, w1, e1) => (Panicked, w1, e1)
    end.

Notation "x <- m ;; k" := (bind m (fun x => k))
  (at level 61, m at next level, right associativity).
Notation "' pat <- m ;; k" := (bind m (fun x => match x with pat => k end))
  (at level 61, pat pattern, m at next level, right associativity).
Notation "m ;; k" := (bind m (fun _ => k))
  (at level 61, right associativity).

(** An outside call with a result, and one without. *)
Definition call {A : Type} (f : W -> A * W) (ev : A -> Event) : M A :=
  fun w => let (a, w1) := f w in (Ok a, w1, [ev a]).

Definition call_ (f : W -> W) (ev : Event) : M unit :=
  fun w => (Ok tt, f w, [ev]).

(** [l[i]]: a run-time panic when the index is out of range. *)
Definition index {A : Type} (l : list A) (i : nat) : M A :=
  match nth_error l i with
  | Some a => ret a
  | None => panic
  end.

(** [v.(uint64)] in its one-result form: a panic on another type. *)
Definition mustUint64 (v : Any) : M Z :=
  match v with VUint64 n => ret n | _ => panic end.

(** The assertion of [err] to the package's error pointer type: a panic
    on another dynamic type. *)
Definition mustError (err : GoError) : M Z :=
  match err with LdapError code => ret code | ForeignError => panic end.

(** ** makeBindDnRequest *)
Definition makeBindDnRequest (username password : string) : Packet :=
  let messageID : Z := 0 in
  let packet :=
    Encode ClassUniversal TypeConstructed TagSequence "LDAP Request" in
  let packet :=
    AppendChild Bytes packet
      (NewInteger encodeInteger ClassUniversal TypePrimitive TagInteger
         (VUint64 messageID) "MessageID") in
  let bindRequest :=
    Encode ClassApplication TypeConstructed ApplicationBindRequest
      "Bind Request" in
  let bindRequest :=
    AppendChild Bytes bindRequest
      (NewInteger encodeInteger ClassUniversal TypePrimitive TagInteger
         (VInt 3) "Version") in
  let bindRequest :=
    AppendChild Bytes bindRequest
      (NewString ClassUniversal TypePrimitive TagOctetString username
         "User Name") in
  let bindRequest :=
    AppendChild Bytes bindRequest
      (NewString ClassContext TypePrimitive 0 password "Password") in
  AppendChild Bytes packet bindRequest.

(** ** sendBindDnRequest

    [boundDN] is the source's [*string]; the second component of the
    result is the string the pointer holds afterwards. *)
Definition sendBindDnRequest (conn : Conn) (boundDN : string)
    : M (bool * string) :=
  let bindDnPacket := makeBindDnRequest BindDn BindPass in
  bindDnReq <- index (Children bindDnPacket) 1 ;;
  call_ (countBinds 1) (EvCountBinds 1) ;;
  ldapResultCode <- call (HandleBindRequest bindDnReq conn)
                         (EvBind Synthetic bindDnReq conn) ;;
  '(boundDN, result) <-
     (if ldapResultCode =? LDAPResultSuccess
      then dn <- index (Children bindDnReq) 1 ;; ret (assertString (Value dn))
      else ret (boundDN, false)) ;;
  idNode <- index (Children bindDnPacket) 0 ;;
  messageID <- mustUint64 (Value idNode) ;;
  let responsePacket := encodeBindResponse messageID ldapResultCode in
  failed <- call (sendPacket conn responsePacket)
                 (EvSend conn responsePacket) ;;
  ret (if failed : bool then false else result, boundDN).

(** ** handleConnectionAndSendBindDn *)

(** The two local variables of the function. *)
Record Session : Type := mkSession {
  boundDN : string;
  isSentBindDn : bool
}.

(** How one turn of the [handler] loop ends: at the end of its body, or
    at a [break]. *)
Inductive Flow : Type := Continue | BreakHandler.

(** The cases that call a chain with the bound DN and answer with
    [encodeLDAPResponse]: extended, add, modify, delete, modify-DN and
    compare. *)
Definition chainCase (c : Chain)
    (handle : Packet -> string -> Conn -> W -> Z * W) (responseType : Z)
    (conn : Conn) (st : Session) (messageID : Z) (req : Packet)
    : M (Flow * Session) :=
  ldapResultCode <- call (handle req (boundDN st) conn)
                         (EvChain c req (boundDN st) conn) ;;
  let responsePacket :=
    encodeLDAPResponse messageID responseType ldapResultCode
      (LDAPResultCodeMap ldapResultCode) in
  failed <- call (sendPacket conn responsePacket)
                 (EvSend conn responsePacket) ;;
  if failed : bool then ret (BreakHandler, st) else ret (Continue, st).

Definition defaultCase (conn : Conn) (st : Session) (messageID : Z)
    : M (Flow * Session) :=
  let responsePacket :=
    encodeLDAPResponse messageID ApplicationAddResponse
      LDAPResultOperationsError "Unsupported operation: add" in
  call (sendPacket conn responsePacket) (EvSend conn responsePacket) ;;
  ret (BreakHandler, st).

Definition bindCase (conn : Conn) (st : Session) (packet : Packet)
    (messageID : Z) (req : Packet) : M (Flow * Session) :=
  call_ (countBinds 1) (EvCountBinds 1) ;;
  ldapResultCode <- call (HandleBindRequest req conn)
                         (EvBind Wire req conn) ;;
  '(dn, ok) <-
     (if ldapResultCode =? LDAPResultSuccess
      then c <- index (Children req) 1 ;; ret (assertString (Value c))
      else ret (boundDN st, true)) ;;
  if negb ok then ret (BreakHandler, mkSession dn (isSentBindDn st)) else
  let responsePacket := encodeBindResponse messageID ldapResultCode in
  failed <- call (sendPacket conn responsePacket)
                 (EvSend conn responsePacket) ;;
  if failed : bool then ret (BreakHandler, mkSession dn (isSentBindDn st)) else
  let bindDnIsEmpty := judgeBindDnIsEmpty packet false in
  if bindDnIsEmpty then
    '(ok, dn) <- sendBindDnRequest conn dn ;;
    if negb ok then ret (BreakHandler, mkSession dn (isSentBindDn st))
    else ret (Continue, mkSession dn true)
  else ret (Continue, mkSession dn (isSentBindDn st)).

Definition searchCase (conn : Conn) (st : Session) (controls : list Control)
    (messageID : Z) (req : Packet) : M (Flow * Session) :=
  '(ok, st) <-
     (if negb (isSentBindDn st)
      then '(ok, dn) <- sendBindDnRequest conn (boundDN st) ;;
           if negb ok then ret (false, mkSession dn (isSentBindDn st))
           else ret (true, mkSession dn true)
      else ret (true, st)) ;;
  if negb ok then ret (BreakHandler, st) else
  call_ (countSearches 1) (EvCountSearches 1) ;;
  err <- call (HandleSearchRequest req controls messageID (boundDN st) conn)
              (EvSearch req controls messageID (boundDN st) conn) ;;
  match err with
  | Some err =>
      code <- mustError err ;;
      let done := encodeSearchDone messageID code in
      call (sendPacket conn done) (EvSend conn done) ;;
      ret (BreakHandler, st)
  | None =>
      let done := encodeSearchDone messageID LDAPResultSuccess in
      failed <- call (sendPacket conn done) (EvSend conn done) ;;
      if failed : bool then ret (BreakHandler, st) else ret (Continue, st)
  end.

(** The [switch] on the operation tag. *)
Definition dispatch (conn : Conn) (st : Session) (packet : Packet)
    (controls : list Control) (messageID : Z) (req : Packet)
    : M (Flow * Session) :=
  let tag := Tag req in
  if tag =? ApplicationBindRequest then
    bindCase conn st packet messageID req
  else if tag =? ApplicationSearchRequest then
    searchCase conn st controls messageID req
  else if tag =? ApplicationUnbindRequest then
    call_ (countUnbinds 1) (EvCountUnbinds 1) ;;
    ret (BreakHandler, st)
  else if tag =? ApplicationExtendedRequest then
    chainCase ExtendedChain HandleExtendedRequest ApplicationExtendedResponse
      conn st messageID req
  else if tag =? ApplicationAbandonRequest then
    call_ (HandleAbandonRequest req (boundDN st) conn)
          (EvAbandon req (boundDN st) conn) ;;
    ret (BreakHandler, st)
  else if tag =? ApplicationAddRequest then
    chainCase AddChain HandleAddRequest ApplicationAddResponse
      conn st messageID req
  else if tag =? ApplicationModifyRequest then
    chainCase ModifyChain HandleModifyRequest ApplicationModifyResponse
      conn st messageID req
  else if tag =? ApplicationDelRequest then
    chainCase DeleteChain HandleDeleteRequest ApplicationDelResponse
      conn st messageID req
  else if tag =? ApplicationModifyDNRequest then
    chainCase ModifyDNChain HandleModifyDNRequest ApplicationModifyDNResponse
      conn st messageID req
  else if tag =? ApplicationCompareRequest then
    chainCase CompareChain HandleCompareRequest ApplicationCompareResponse
      conn st messageID req
  else defaultCase conn st messageID.

(** The body of the [handler] loop once a packet has been read. *)
Definition handlePacket (conn : Conn) (st : Session) (packet : Packet)
    : M (Flow * Session) :=
  if Z.of_nat (List.length (Children packet)) <? 2
  then ret (BreakHandler, st) else
  idNode <- index (Children packet) 0 ;;
  let '(messageID, ok) := assertUint64 (Value idNode) in
  if negb ok then ret (BreakHandler, st) else
  req <- index (Children packet) 1 ;;
  if negb (ClassType req =? ClassApplication)
  then ret (BreakHandler, st) else
  controls <-
    (if Z.of_nat (List.length (Children packet)) >? 2
     then c <- index (Children packet) 2 ;;
          ret (map DecodeControl (Children c))
     else ret []) ;;
  dispatch conn st packet controls messageID req.

(** The [handler] loop over what the successive [ber.ReadPacket] calls
    return; a stream that ends reads as [io.EOF]. *)
Fixpoint handlerLoop (conn : Conn) (st : Session) (reads : list ReadResult)
    : M Session :=
  match reads with
  | [] => ret st
  | ReadEOF :: _ => ret st
  | ReadFailure :: _ => ret st
  | ReadPacket packet :: rest =>
      '(flow, st) <- handlePacket conn st packet ;;
      match flow with
      | Continue => handlerLoop conn st rest
      | BreakHandler => ret st
      end
  end.

Fixpoint closeAll (fns : list Closer) (boundDN : string) (conn : Conn)
    : M unit :=
  match fns with
  | [] => ret tt
  | c :: fns =>
      call_ (Close c boundDN conn) (EvClose c boundDN conn) ;;
      closeAll fns boundDN conn
  end.

Definition initialSession : Session := mkSession EmptyString false.

Definition handleConnectionAndSendBindDn (conn : Conn)
    (reads : list ReadResult) : M Session :=
  st <- handlerLoop conn initialSession reads ;;
  closeAll CloseFns (boundDN st) conn ;;
  call_ (connClose conn) (EvConnClose conn) ;;
  ret st.

(** *** Observations on a trace *)

(** The calls of the bind chain made by [sendBindDnRequest]. *)
Definition isForward (e : Event) : bool :=
  match e with EvBind Synthetic _ _ _ => true | _ => false end.

Definition forwards (ev : list Event) : nat :=
  List.length (filter isForward ev).



Definition isClose (e : Event) : bool :=
  match e with EvClose _ _ _ => true | _ => false end.

Definition closeCalls (ev : list Event) : list Event := filter isClose ev.

(** A forwarding attempt that went through: the bind chain answered the
    synthetic request with success and the response that follows it was
    sent. *)
Fixpoint forwardedOk (ev : list Event) : bool :=
  match ev with
  | [] => false
  | EvBind Synthetic _ _ code :: EvSend _ _ failed :: rest =>
      ((code =? LDAPResultSuccess) && negb failed) || forwardedOk rest
  | _ :: rest => forwardedOk rest
  end.

(** The bind chain answered some request, from the wire or synthetic,
    with success. *)
Definition isBindSuccess (e : Event) : bool :=
  match e with EvBind _ _ _ code => code =? LDAPResultSuccess | _ => false end.

(** A received envelope whose operation is a bind request and in which
    the predicate evaluator finds an empty octet string. *)
Definition isEmptyBind (packet : Packet) : bool :=
  match Children packet with
  | _ :: req :: _ =>
      (Tag req =? ApplicationBindRequest) && judgeBindDnIsEmpty packet false
  | _ => false
  end.

Definition emptyBinds (reads : list ReadResult) : nat :=
  List.length
    (filter (fun r => match r with
                      | ReadPacket packet => isEmptyBind packet
                      | _ => false
                      end) reads).

(** The bind request inside the envelope [makeBindDnRequest] builds from
    the configured service identity, as [sendBindDnRequest] takes it. *)
Definition forwardedRequest : Packet :=
  nth 1 (Children (makeBindDnRequest BindDn BindPass))
        (makeBindDnRequest BindDn BindPass).

(** What one run of [sendBindDnRequest] meets outside: the answer of the
    bind chain to the synthetic request, and the fate of the response. *)
Definition forwardAnswer (conn : Conn) (w : W) : Z * W :=
  HandleBindRequest forwardedRequest conn (countBinds 1 w).

Definition forwardSend (conn : Conn) (w : W) : bool * W :=
  sendPacket conn (encodeBindResponse 0 (fst (forwardAnswer conn w)))
             (snd (forwardAnswer conn w)).

Definition forwardEvents (conn : Conn) (w : W) : list Event :=
  [EvCountBinds 1;
   EvBind Synthetic forwardedRequest conn (fst (forwardAnswer conn w));
   EvSend conn (encodeBindResponse 0 (fst (forwardAnswer conn w)))
          (fst (forwardSend conn w))].

End Session.

(** ** A concrete server for running the session

    The tags and codes of RFC 4511, and collaborators whose bind chain
    answers a request of three children from a script (success once the
    script is used up) and any other request with an error, while every
    other chain succeeds and every send goes through. *)
Definition rfc4511 : LdapConstants := {|
  ApplicationBindRequest := 0;
  ApplicationUnbindRequest := 2;
  ApplicationSearchRequest := 3;
  ApplicationModifyRequest := 6;
  ApplicationModifyResponse := 7;
  ApplicationAddRequest := 8;
  ApplicationAddResponse := 9;
  ApplicationDelRequest := 10;
  ApplicationDelResponse := 11;
  ApplicationModifyDNRequest := 12;
  ApplicationModifyDNResponse := 13;
  ApplicationCompareRequest := 14;
  ApplicationCompareResponse := 15;
  ApplicationAbandonRequest := 16;
  ApplicationExtendedRequest := 23;
  ApplicationExtendedResponse := 24;
  LDAPResultSuccess := 0;
  LDAPResultOperationsError := 1;
  LDAPResultCodeMap := fun c =>
    match c with
    | 0 => "Success"
    | 1 => "Operations Error"
    | _ => EmptyString
    end
|}.

Definition scriptedBind (script : list Z) : Z * list Z :=
  match script with
  | [] => (0, [])
  | code :: script => (code, script)
  end.

Definition scripted : Collaborators (list Z) nat Packet string := {|
  encodeInteger := fun _ => [x01];
  Bytes := fun _ => [x30];
  DecodeControl := fun p => p;
  encodeLDAPResponse := fun messageID responseType code message =>
    mkPacket ClassApplication TypeConstructed responseType (VUint64 messageID)
      [x30] [mkPacket ClassUniversal TypePrimitive TagEnumerated (VUint64 code)
               [x01] [] message] "LDAP Response";
  encodeBindResponse := fun messageID code =>
    mkPacket ClassApplication TypeConstructed 1 (VUint64 messageID)
      [x30] [mkPacket ClassUniversal TypePrimitive TagEnumerated (VUint64 code)
               [x01] [] "resultCode"] "Bind Response";
  encodeSearchDone := fun messageID code =>
    mkPacket ClassApplication TypeConstructed 5 (VUint64 messageID)
      [x30] [mkPacket ClassUniversal TypePrimitive TagEnumerated (VUint64 code)
               [x01] [] "resultCode"] "Search Done";
  sendPacket := fun _ _ w => (false, w);
  HandleBindRequest := fun req _ w =>
    match Children req with
    | [_; _; _] => scriptedBind w
    | _ => (1, w)
    end;
  HandleSearchRequest := fun _ _ _ _ _ w => (None, w);
  HandleExtendedRequest := fun _ _ _ w => (0, w);
  HandleAbandonRequest := fun _ _ _ w => w;
  HandleAddRequest := fun _ _ _ w => (0, w);
  HandleModifyRequest := fun _ _ _ w => (0, w);
  HandleDeleteRequest := fun _ _ _ w => (0, w);
  HandleModifyDNRequest := fun _ _ _ w => (0, w);
  HandleCompareRequest := fun _ _ _ w => (0, w);
  countBinds := fun _ w => w;
  countSearches := fun _ w => w;
  countUnbinds := fun _ w => w;
  CloseFns := ["audit"; "metrics"];
  Close := fun _ _ _ w => w;
  connClose := fun _ w => w;
  BindDn := "cn=service,dc=example";
  BindPass := "secret"
|}.

(** Envelopes a client can send: an identifier and an operation. *)
Definition envelope (messageID : Z) (req : Packet) : Packet :=
  mkPacket ClassUniversal TypeConstructed TagSequence VNil [x02; x30]
    [mkPacket ClassUniversal TypePrimitive TagInteger (VUint64 messageID)
       [x01] [] "MessageID"; req] "LDAP Request".

Definition simpleBind (dn password : string) : Packet :=
  mkPacket ClassApplication TypeConstructed 0 VNil [x02; x04; x80]
    [mkPacket ClassUniversal TypePrimitive TagInteger (VUint64 3) [x03] []
       "Version";
     mkPacket ClassUniversal TypePrimitive TagOctetString (VString dn)
       (list_byte_of_string dn) [] "User Name";
     mkPacket ClassContext TypePrimitive 0 (VString password)
       (list_byte_of_string password) [] "Password"] "Bind Request".

(** An operation without children, of the given application tag. *)
Definition bareRequest (tag : Z) : Packet :=
  mkPacket ClassApplication TypeConstructed tag VNil [] [] "Request".

Definition conn0 : nat := 7%nat.

(** The same server with a bind chain that answers success to whatever
    it is given, without looking at the request. *)
Definition trusting : Collaborators (list Z) nat Packet string := {|
  encodeInteger := encodeInteger (Collaborators := scripted);
  Bytes := Bytes (Collaborators := scripted);
  DecodeControl := DecodeControl (Collaborators := scripted);
  encodeLDAPResponse := encodeLDAPResponse (Collaborators := scripted);
  encodeBindResponse := encodeBindResponse (Collaborators := scripted);
  encodeSearchDone := encodeSearchDone (Collaborators := scripted);
  sendPacket := sendPacket (Collaborators := scripted);
  HandleBindRequest := fun _ _ w => (0, w);
  HandleSearchRequest := HandleSearchRequest (Collaborators := scripted);
  HandleExtendedRequest := HandleExtendedRequest (Collaborators := scripted);
  HandleAbandonRequest := HandleAbandonRequest (Collaborators := scripted);
  HandleAddRequest := HandleAddRequest (Collaborators := scripted);
  HandleModifyRequest := HandleModifyRequest (Collaborators := scripted);
  HandleDeleteRequest := HandleDeleteRequest (Collaborators := scripted);
  HandleModifyDNRequest := HandleModifyDNRequest (Collaborators := scripted);
  HandleCompareRequest := HandleCompareRequest (Collaborators := scripted);
  countBinds := countBinds (Collaborators := scripted);
  countSearches := countSearches (Collaborators := scripted);
  countUnbinds := countUnbinds (Collaborators := scripted);
  CloseFns := CloseFns (Collaborators := scripted);
  Close := Close (Collaborators := scripted);
  connClose := connClose (Collaborators := scripted);
  BindDn := BindDn (Collaborators := scripted);
  BindPass := BindPass (Collaborators := scripted)
|}.

(** ** Further observations on a trace *)
Section Observations.

Context {W Conn Control Closer : Type}.
Context {K : LdapConstants} {E : Collaborators W Conn Control Closer}.

(** The controls of an envelope as the loop decodes them: the children
    of the third child, in order, and none without a third child. *)
Definition decodedControls (packet : Packet) : list Control :=
  match Children packet with
  | _ :: _ :: c :: _ => map DecodeControl (Children c)
  | _ => []
  end.


(** The cases of the [switch] that answer with [encodeLDAPResponse]:
    request tag, chain, handler and response tag. *)
Definition chainTable
    : list (Z * Chain * (Packet -> string -> Conn -> W -> Z * W) * Z) :=
  [(ApplicationExtendedRequest, ExtendedChain, HandleExtendedRequest,
    ApplicationExtendedResponse);
   (ApplicationAddRequest, AddChain, HandleAddRequest,
    ApplicationAddResponse);
   (ApplicationModifyRequest, ModifyChain, HandleModifyRequest,
    ApplicationModifyResponse);
   (ApplicationDelRequest, DeleteChain, HandleDeleteRequest,
    ApplicationDelResponse);
   (ApplicationModifyDNRequest, ModifyDNChain, HandleModifyDNRequest,
    ApplicationModifyDNResponse);
   (ApplicationCompareRequest, CompareChain, HandleCompareRequest,
    ApplicationCompareResponse)].

Definition isFailedSend (e : @Event Conn Control Closer) : bool :=
  match e with EvSend _ _ true => true | _ => false end.

(** Some call was made after a send that failed. *)
Fixpoint callAfterFailedSend (ev : list (@Event Conn Control Closer))
    : bool :=
  match ev with
  | [] => false
  | EvSend _ _ true :: (_ :: _) => true
  | _ :: rest => callAfterFailedSend rest
  end.





Definition isConnClose (e : @Event Conn Control Closer) : bool :=
  match e with EvConnClose _ => true | _ => false end.

Definition occurrences (f : @Event Conn Control Closer -> bool)
    (ev : list (@Event Conn Control Closer)) : nat :=
  List.length (filter f ev).

End Observations.

(** * Properties *)

(** ** The predicate evaluator *)

Ltac split_positive H :=
  repeat match goal with
         | p : positive |- _ => destruct p; simpl in H; try discriminate H
         end.

Lemma ClassMap_Universal (c : Z) :
  ClassMap c = "Universal" -> c = ClassUniversal.
Proof.
  intros H; destruct c; simpl in H; [reflexivity | exfalso | discriminate H].
  split_positive H.
Qed.

Lemma TypeMap_Primative (t : Z) :
  TypeMap t = "Primative" -> t = TypePrimitive.
Proof.
  intros H; destruct t; simpl in H; [reflexivity | exfalso | discriminate H].
  split_positive H.
Qed.

Lemma TagMap_OctetString (t : Z) :
  TagMap t = "Octet String" -> t = TagOctetString.
Proof.
  intros H; destruct t; simpl in H; try discriminate H.
  split_positive H; reflexivity.
Qed.

Lemma emptyOctetStringb_spec (n : Packet) :
  emptyOctetStringb n = true <-> emptyOctetString n.
Proof.
  unfold emptyOctetStringb, emptyOctetString.
  rewrite !andb_true_iff, !Z.eqb_eq, Nat.eqb_eq. tauto.
Qed.

(** The test of the source, made on the names of class, type and tag,
    is the test on the fields. *)
Lemma name_test_is_field_test (p : Packet) :
  (ClassMap (ClassType p) =? "Universal")%string &&
  (TypeMap (TagType p) =? "Primative")%string &&
  String.eqb (if ClassType p =? ClassUniversal
              then TagMap (Tag p) else Sprintf_0x02X (Tag p)) "Octet String" &&
  (Z.of_nat (List.length (Data p)) =? 0)
  = emptyOctetStringb p.
Proof.
  unfold emptyOctetStringb.
  destruct (String.eqb_spec (ClassMap (ClassType p)) "Universal") as [Hc|Hc].
  - apply ClassMap_Universal in Hc. rewrite Hc. cbn [andb].
    replace (ClassUniversal =? ClassUniversal) with true by reflexivity.
    cbn [andb].
    destruct (String.eqb_spec (TypeMap (TagType p)) "Primative") as [Ht|Ht].
    + apply TypeMap_Primative in Ht. rewrite Ht. cbn [andb].
      replace (TypePrimitive =? TypePrimitive) with true by reflexivity.
      cbn [andb].
      destruct (String.eqb_spec (TagMap (Tag p)) "Octet String") as [Hg|Hg].
      * apply TagMap_OctetString in Hg. rewrite Hg. cbn [andb].
        replace (TagOctetString =? TagOctetString) with true by reflexivity.
        cbn [andb]. destruct (Data p); reflexivity.
      * destruct (Z.eqb_spec (Tag p) TagOctetString) as [E|E];
          [rewrite E in Hg; now elim Hg | reflexivity].
    + destruct (Z.eqb_spec (TagType p) TypePrimitive) as [E|E];
        [rewrite E in Ht; now elim Ht | reflexivity].
  - destruct (Z.eqb_spec (ClassType p) ClassUniversal) as [E|E];
      [rewrite E in Hc; now elim Hc | reflexivity].
Qed.

Lemma fold_judge_orb (l : list Packet) :
  Forall (fun c => forall r,
            judgeBindDnIsEmpty c r = r || existsb emptyOctetStringb (nodes c)) l ->
  forall r,
    fold_left (fun r child => judgeBindDnIsEmpty child r) l r
    = r || existsb emptyOctetStringb (flat_map nodes l).
Proof.
  induction 1 as [|c l Hc _ IH]; intros r; simpl.
  - now rewrite orb_false_r.
  - rewrite IH, Hc, existsb_app, orb_assoc. reflexivity.
Qed.

(** The evaluator only ever raises the flag: it returns the incoming
    flag or-ed with the search of the whole tree. *)
Lemma judgeBindDnIsEmpty_orb (p : Packet) (r : bool) :
  judgeBindDnIsEmpty p r = r || existsb emptyOctetStringb (nodes p).
Proof.
  revert r. induction p as [p IH] using Packet_tree_ind. intros r.
  destruct p as [c t g v d cs ds]. cbn [Children] in IH.
  cbn [judgeBindDnIsEmpty nodes existsb Children].
  rewrite (fold_judge_orb cs IH).
  rewrite (name_test_is_field_test (mkPacket c t g v d cs ds)).
  destruct (emptyOctetStringb (mkPacket c t g v d cs ds)), r; reflexivity.
Qed.

(** C4: started from [false], the evaluator answers [true] exactly when
    some node of the tree is a universal, primitive octet string with
    zero-length content; with no such node the answer stays [false]. *)
Theorem judgeBindDnIsEmpty_iff_empty_octet_node (p : Packet) :
  (judgeBindDnIsEmpty p false = true <->
   exists n, In n (nodes p) /\ emptyOctetString n) /\
  ((forall n, In n (nodes p) -> ~ emptyOctetString n) ->
   judgeBindDnIsEmpty p false = false).
Proof.
  rewrite judgeBindDnIsEmpty_orb. cbn [orb]. split.
  - rewrite existsb_exists. split; intros [n [Hin Hn]]; exists n;
      (split; [exact Hin | now apply emptyOctetStringb_spec]).
  - intros Hno. apply not_true_is_false. rewrite existsb_exists.
    intros [n [Hin Hn]]. apply (Hno n Hin). now apply emptyOctetStringb_spec.
Qed.




(** ** The session *)
Section SessionProperties.

Context {W Conn Control Closer : Type}.
Context {K : LdapConstants} {E : Collaborators W Conn Control Closer}.

Ltac run_monad :=
  cbv beta iota zeta delta
    [bind ret call call_ panic index mustUint64 mustError nth_error
     assertString assertUint64];
  cbn [fst snd app negb andb].

(** *** The bind forwarder *)

Lemma makeBindDnRequest_children (username password : string) :
  exists idNode version name pass req,
    Children (makeBindDnRequest username password) = [idNode; req] /\
    Value idNode = VUint64 0 /\
    Children req = [version; name; pass] /\
    Value version = VInt 3 /\
    Value name = VString username /\
    Value pass = VString password.
Proof.
  unfold makeBindDnRequest, AppendChild, NewInteger, NewString, Encode.
  cbn [Children Value ClassType TagType Tag Data Description app].
  do 5 eexists. repeat split; reflexivity.
Qed.

(** One run of the forwarder: the counter, the bind chain on the
    synthetic request, the bind response under identifier 0; it reports
    success when the chain did and the response went out. *)
Lemma sendBindDnRequest_run (conn : Conn) (dn : string) (w : W) :
  sendBindDnRequest conn dn w =
  (Ok ((fst (forwardAnswer conn w) =? LDAPResultSuccess) &&
       negb (fst (forwardSend conn w)),
       if fst (forwardAnswer conn w) =? LDAPResultSuccess
       then BindDn else dn),
   snd (forwardSend conn w),
   forwardEvents conn w).
Proof.
  unfold forwardEvents, forwardSend, forwardAnswer.
  unfold sendBindDnRequest, forwardedRequest.
  destruct (makeBindDnRequest_children BindDn BindPass)
    as (idNode & version & name & pass & req & Hc & Hid & Hr & _ & Hn & _).
  rewrite Hc. cbn [nth]. run_monad. rewrite Hr. run_monad.
  destruct (HandleBindRequest req conn (countBinds 1 w)) as [code w1].
  cbn [fst snd]. rewrite Hid, Hn.
  destruct (code =? LDAPResultSuccess); run_monad;
    destruct (sendPacket conn (encodeBindResponse 0 code) w1) as [[] w2];
    reflexivity.
Qed.

(** *** One turn of the loop *)

Ltac unfold_turn :=
  unfold handlePacket, dispatch, bindCase, searchCase, chainCase,
    defaultCase.

Ltac destruct_innermost :=
  match goal with
  | |- context [match ?x with _ => _ end] =>
      lazymatch x with
      | context [match _ with _ => _ end] => fail
      | _ => destruct x eqn:?
      end
  end.

Ltac split_run :=
  repeat first
    [ progress run_monad
    | progress cbn [boundDN isSentBindDn]
    | progress rewrite sendBindDnRequest_run
    | destruct_innermost ].

Ltac close_run :=
  let H := fresh "H" in
  intros H; inversion H; subst; clear H.

Ltac use_tests :=
  repeat match goal with
         | H : ?b = true |- context [?b] => rewrite H
         | H : ?b = false |- context [?b] => rewrite H
         end.

(** What a turn that returns tells about its trace: the bound DN moves
    only under a bind chain that answered success, and the flag is the
    old flag or-ed with a forwarding that went through. *)
Lemma handlePacket_state (conn : Conn) (st : Session) (packet : Packet)
    (w : W) (flow : Flow) (st' : Session) (w' : W) (ev : list Event) :
  handlePacket conn st packet w = (Ok (flow, st'), w', ev) ->
  (boundDN st' <> boundDN st -> existsb isBindSuccess ev = true) /\
  isSentBindDn st' = isSentBindDn st || forwardedOk ev /\
  ((1 <= forwards ev)%nat -> forwardedOk ev = false -> flow = BreakHandler).
Proof.
  unfold_turn. destruct st as [dn0 sent0].
  destruct (Children packet) as [|idNode [|req rest]];
    split_run; close_run; unfold forwards, forwardEvents in *;
    cbn [boundDN isSentBindDn existsb isBindSuccess forwardedOk filter
         isForward List.length app fst snd] in *;
    use_tests;
    repeat match goal with
           | |- context [fst (forwardSend ?c ?x)] =>
               destruct (fst (forwardSend c x))
           end;
    cbn [orb andb negb] in *; try discriminate;
    (split; [intros Hne; first [now elim Hne | now rewrite ?orb_true_r]
            | split; [ now rewrite ?orb_false_r, ?orb_true_r
                     | intros Hf Hk; first [reflexivity | lia | discriminate Hk] ]]).
Qed.

(** The forwarder runs at most once in a turn, and a turn that forwards
    either uses up the one forwarding a fresh connection is owed before a
    search, or answers a bind judged empty. *)
Lemma handlePacket_forwards (conn : Conn) (st : Session) (packet : Packet)
    (w : W) :
  match handlePacket conn st packet w with
  | (Ok (Continue, st'), _, ev) =>
      forwards ev + (if isSentBindDn st' then 0 else 1)
      <= (if isSentBindDn st then 0 else 1)
         + (if isEmptyBind packet then 1 else 0)
  | (_, _, ev) =>
      forwards ev
      <= (if isSentBindDn st then 0 else 1)
         + (if isEmptyBind packet then 1 else 0)
  end%nat.
Proof.
  unfold_turn. unfold isEmptyBind. destruct st as [dn0 sent0].
  destruct (Children packet) as [|idNode [|req rest]];
    split_run; unfold forwards, forwardEvents in *;
    cbn [filter isForward List.length app fst snd andb] in *;
    try discriminate; try lia.
Qed.

(** The loop body never calls a close collaborator. *)
Lemma handlePacket_no_close (conn : Conn) (st : Session) (packet : Packet)
    (w : W) :
  closeCalls (snd (handlePacket conn st packet w)) = [].
Proof.
  unfold_turn. destruct st as [dn0 sent0].
  destruct (Children packet) as [|idNode [|req rest]];
    split_run; reflexivity.
Qed.

(** A well-formed envelope reaches the [switch] with its identifier,
    its operation and its decoded controls. *)
Lemma handlePacket_dispatch (conn : Conn) (st : Session) (packet : Packet)
    (idNode req : Packet) (rest : list Packet) (messageID : Z) (w : W) :
  Children packet = idNode :: req :: rest ->
  Value idNode = VUint64 messageID ->
  ClassType req = ClassApplication ->
  handlePacket conn st packet w =
  dispatch conn st packet
    (match rest with c :: _ => map DecodeControl (Children c) | [] => [] end)
    messageID req w.
Proof.
  intros Hc Hid Hcl. unfold handlePacket. rewrite Hc.
  replace (Z.of_nat (List.length (idNode :: req :: rest)) <? 2) with false
    by (symmetry; apply Z.ltb_ge; cbn [List.length]; lia).
  run_monad. rewrite Hid, Hcl. cbn [negb].
  replace (ClassApplication =? ClassApplication) with true by reflexivity.
  cbn [negb].
  destruct rest as [|c rest].
  - replace (Z.of_nat (List.length [idNode; req]) >? 2) with false
      by reflexivity.
    destruct (dispatch conn st packet [] messageID req w) as [[r w1] e1].
    reflexivity.
  - replace (Z.of_nat (List.length (idNode :: req :: c :: rest)) >? 2)
      with true
      by (symmetry; apply Z.gtb_lt; cbn [List.length]; lia).
    destruct (dispatch conn st packet (map DecodeControl (Children c))
                messageID req w) as [[r w1] e1].
    reflexivity.
Qed.

(** *** Distinct request tags *)

Lemma distinct_positions (i j : nat) :
  request_tags_distinct ->
  (i < 10)%nat -> (j < 10)%nat -> i <> j ->
  nth i request_tags 0 <> nth j request_tags 0.
Proof.
  intros Hd Hi Hj Hij Heq. apply Hij.
  apply (proj1 (NoDup_nth request_tags 0) Hd i j); assumption.
Qed.

Lemma tag_eqb_false (i j : nat) (t : Z) :
  request_tags_distinct ->
  (i < 10)%nat -> (j < 10)%nat -> i <> j ->
  t = nth i request_tags 0 -> (t =? nth j request_tags 0) = false.
Proof.
  intros Hd Hi Hj Hij ->. apply Z.eqb_neq.
  now apply distinct_positions.
Qed.

(** *** Traces *)

Lemma forwards_app (a b : list (@Event Conn Control Closer)) :
  forwards (a ++ b) = (forwards a + forwards b)%nat.
Proof. unfold forwards. now rewrite filter_app, length_app. Qed.

Lemma closeCalls_app (a b : list (@Event Conn Control Closer)) :
  closeCalls (a ++ b) = closeCalls a ++ closeCalls b.
Proof. unfold closeCalls. apply filter_app. Qed.

Lemma closeAll_run (fns : list Closer) (dn : string) (conn : Conn) (w : W) :
  closeAll fns dn conn w =
  (Ok tt, fold_left (fun w c => Close c dn conn w) fns w,
   map (fun c => EvClose c dn conn) fns).
Proof.
  revert w. induction fns as [|c fns IH]; intros w; cbn [closeAll].
  - reflexivity.
  - run_monad. rewrite IH. reflexivity.
Qed.

(** *** The loop *)

Ltac split_ifs :=
  repeat match goal with
         | |- context [if ?b then _ else _] => destruct b
         | H : context [if ?b then _ else _] |- _ => destruct b
         end.

Lemma handlerLoop_forwards (conn : Conn) (reads : list ReadResult) :
  forall (st : Session) (w : W),
    (forwards (snd (handlerLoop conn st reads w))
     <= (if isSentBindDn st then 0 else 1) + emptyBinds reads)%nat.
Proof.
  induction reads as [|r reads IH]; intros st w.
  - cbn. lia.
  - destruct r as [packet| |]; cbn [handlerLoop]; [|cbn; lia..].
    unfold bind.
    pose proof (handlePacket_forwards conn st packet w) as Hstep.
    destruct (handlePacket conn st packet w) as [[r w1] e1].
    replace (emptyBinds (ReadPacket packet :: reads))
      with ((if isEmptyBind packet then 1 else 0) + emptyBinds reads)%nat
      by (unfold emptyBinds; cbn [filter];
          destruct (isEmptyBind packet); reflexivity).
    destruct r as [[[|] st1]|]; cbn [snd ret]; rewrite ?app_nil_r;
      [|split_ifs; lia..].
    specialize (IH st1 w1).
    destruct (handlerLoop conn st1 reads w1) as [[r2 w2] e2].
    cbn [snd] in *. rewrite forwards_app. split_ifs; lia.
Qed.

Lemma handlerLoop_no_close (conn : Conn) (reads : list ReadResult) :
  forall (st : Session) (w : W),
    closeCalls (snd (handlerLoop conn st reads w)) = [].
Proof.
  induction reads as [|r reads IH]; intros st w.
  - reflexivity.
  - destruct r as [packet| |]; cbn [handlerLoop]; try reflexivity.
    unfold bind.
    pose proof (handlePacket_no_close conn st packet w) as Hstep.
    destruct (handlePacket conn st packet w) as [[r w1] e1].
    cbn [snd] in Hstep.
    destruct r as [[[|] st1]|]; cbn [snd ret];
      rewrite ?app_nil_r; try assumption.
    specialize (IH st1 w1).
    destruct (handlerLoop conn st1 reads w1) as [[r2 w2] e2].
    cbn [snd] in *. rewrite closeCalls_app, Hstep, IH. reflexivity.
Qed.

(** *** Structural violations and unsupported operations *)

(** C6: an envelope with fewer than two children, or whose identifier is
    not an unsigned integer, or whose operation is not of class
    application, ends the loop at once: nothing is called, nothing is
    sent, and the packets that follow are not read. *)
Theorem malformed_envelope_ends_session (conn : Conn) (st : Session)
    (packet : Packet) (reads : list ReadResult) (w : W) :
  ((List.length (Children packet) < 2)%nat \/
   (exists idNode, nth_error (Children packet) 0 = Some idNode /\
                   forall n, Value idNode <> VUint64 n) \/
   (exists req, nth_error (Children packet) 1 = Some req /\
                ClassType req <> ClassApplication)) ->
  handlePacket conn st packet w = (Ok (BreakHandler, st), w, []) /\
  handlerLoop conn st (ReadPacket packet :: reads) w = (Ok st, w, []).
Proof.
  intros Hbad.
  assert (Hturn : handlePacket conn st packet w
                  = (Ok (BreakHandler, st), w, [])).
  { unfold handlePacket.
    destruct (Children packet) as [|idNode [|req rest]]; try reflexivity.
    replace (Z.of_nat (List.length (idNode :: req :: rest)) <? 2) with false
      by (symmetry; apply Z.ltb_ge; cbn [List.length]; lia).
    run_monad.
    destruct Hbad as [Hlen | [(c & Hc & Hid) | (c & Hc & Hcl)]].
    - cbn [List.length] in Hlen. lia.
    - injection Hc as <-.
      destruct (Value idNode) as [| | |n|]; try reflexivity.
      now elim (Hid n).
    - injection Hc as <-.
      destruct (Value idNode) as [| | |n|]; try reflexivity.
      cbn [negb].
      destruct (Z.eqb_spec (ClassType req) ClassApplication) as [Heq|Hne];
        [now elim Hcl | reflexivity]. }
  split; [exact Hturn|].
  cbn [handlerLoop]. unfold bind. rewrite Hturn. reflexivity.
Qed.

Lemma not_in_tags_eqb (t : Z) :
  ~ In t request_tags ->
  Forall (fun k => (t =? k) = false) request_tags.
Proof.
  intros Hnot. apply Forall_forall. intros k Hk.
  apply Z.eqb_neq. intros ->. now apply Hnot.
Qed.

(** C7: an operation whose tag is none of the recognised ones gets
    exactly one response, [encodeLDAPResponse] of the identifier with tag
    add-response and code operations-error, and the loop ends there
    whether or not the send went through. *)
Theorem unsupported_operation_answer (conn : Conn) (st : Session)
    (packet idNode req : Packet) (rest : list Packet) (messageID : Z)
    (reads : list ReadResult) (w : W) :
  Children packet = idNode :: req :: rest ->
  Value idNode = VUint64 messageID ->
  ClassType req = ClassApplication ->
  ~ In (Tag req) request_tags ->
  let response :=
    encodeLDAPResponse messageID ApplicationAddResponse
      LDAPResultOperationsError "Unsupported operation: add" in
  let s := sendPacket conn response w in
  handlePacket conn st packet w
  = (Ok (BreakHandler, st), snd s, [EvSend conn response (fst s)]) /\
  handlerLoop conn st (ReadPacket packet :: reads) w
  = (Ok st, snd s, [EvSend conn response (fst s)]).
Proof.
  intros Hc Hid Hcl Hnot response s.
  assert (Hturn : handlePacket conn st packet w
                  = (Ok (BreakHandler, st), snd s,
                     [EvSend conn response (fst s)])).
  { rewrite (handlePacket_dispatch conn st packet idNode req rest messageID w
               Hc Hid Hcl).
    apply not_in_tags_eqb in Hnot. unfold request_tags in Hnot.
    repeat match goal with
           | H : Forall _ (_ :: _) |- _ => inversion H; subst; clear H
           end.
    unfold dispatch.
    repeat match goal with
           | H : (Tag req =? _) = false |- _ => rewrite H; clear H
           end.
    unfold defaultCase. run_monad. subst s response.
    destruct (sendPacket conn _ w) as [failed w1]. reflexivity. }
  split; [exact Hturn|].
  cbn [handlerLoop]. unfold bind. rewrite Hturn. cbn [ret].
  rewrite app_nil_r. reflexivity.
Qed.

(** *** Turns that return

    A turn panics only on a bind the chain answered with success although
    the request has no second child, or on a search error that is not the
    package's own.  With chains that exclude both, every turn and the
    whole loop return. *)




(** *** Unbind, abandon and the close sequence *)




(** *** The synthetic bind *)

(** C9: the envelope [makeBindDnRequest] builds carries identifier 0 and
    a bind request of version 3 with the given user name and password;
    [sendBindDnRequest] builds it from the configured [BindDn] and
    [BindPass], submits its bind request to the bind chain, and sends the
    bind response under identifier 0. *)
Theorem synthetic_bind_request_and_response (conn : Conn) (dn : string)
    (w : W) :
  (forall username password : string,
      exists idNode version name pass req,
        Children (makeBindDnRequest username password) = [idNode; req] /\
        Value idNode = VUint64 0 /\
        Tag req = ApplicationBindRequest /\
        Children req = [version; name; pass] /\
        Value version = VInt 3 /\
        Value name = VString username /\
        Value pass = VString password) /\
  nth_error (Children (makeBindDnRequest BindDn BindPass)) 1
  = Some forwardedRequest /\
  exists (code : Z) (failed : bool),
    snd (sendBindDnRequest conn dn w)
    = [EvCountBinds 1; EvBind Synthetic forwardedRequest conn code;
       EvSend conn (encodeBindResponse 0 code) failed].
Proof.
  split; [|split].
  - intros username password.
    unfold makeBindDnRequest, AppendChild, NewInteger, NewString, Encode.
    cbn [Children Value ClassType TagType Tag Data Description app].
    do 5 eexists. repeat split; reflexivity.
  - reflexivity.
  - rewrite sendBindDnRequest_run. cbn [snd]. unfold forwardEvents.
    do 2 eexists. reflexivity.
Qed.

(** *** The bound DN and the flag *)


(** C5 (amended): the flag after a turn is the flag before it or-ed with
    a forwarding attempt that went through (the chain answered success
    and the response was sent), which is what the forwarder reports; a
    turn whose forwarding attempt failed ends the loop and leaves the
    flag as it was. *)
Theorem flag_set_by_forwarding_that_went_through (conn : Conn)
    (st : Session) (packet : Packet) (w : W) (flow : Flow) (st' : Session)
    (w' : W) (ev : list Event) :
  handlePacket conn st packet w = (Ok (flow, st'), w', ev) ->
  (forall dn v, exists dn',
      fst (fst (sendBindDnRequest conn dn v))
      = Ok (forwardedOk (snd (sendBindDnRequest conn dn v)), dn')) /\
  isSentBindDn st' = isSentBindDn st || forwardedOk ev /\
  ((1 <= forwards ev)%nat -> forwardedOk ev = false ->
   flow = BreakHandler /\ isSentBindDn st' = isSentBindDn st).
Proof.
  intros Hrun.
  destruct (handlePacket_state conn st packet w flow st' w' ev Hrun)
    as (_ & Hflag & Hbreak).
  split; [|split].
  - intros dn v. rewrite sendBindDnRequest_run. cbn [fst snd].
    unfold forwardEvents. cbn [forwardedOk]. rewrite orb_false_r.
    eexists. reflexivity.
  - exact Hflag.
  - intros Hf Hk. split; [now apply Hbreak|].
    now rewrite Hflag, Hk, orb_false_r.
Qed.

(** *** When the forwarder runs *)

Lemma closes_no_forward (fns : list Closer) (dn : string) (conn : Conn) :
  forwards (Control := Control)
    (map (fun c => EvClose c dn conn) fns ++ [EvConnClose conn])
  = 0%nat.
Proof.
  unfold forwards. induction fns as [|c fns IH]; cbn; [reflexivity|exact IH].
Qed.

(** C3 (amended): over a whole connection the forwarder submits its
    synthetic bind at most once, plus once for every received bind
    request in which the evaluator finds an empty octet string. *)
Theorem forwards_bounded_by_empty_binds (conn : Conn)
    (reads : list ReadResult) (w : W) :
  (forwards (snd (handleConnectionAndSendBindDn conn reads w))
   <= 1 + emptyBinds reads)%nat.
Proof.
  pose proof (handlerLoop_forwards conn reads initialSession w) as Hloop.
  cbn [initialSession isSentBindDn] in Hloop.
  unfold handleConnectionAndSendBindDn, bind.
  destruct (handlerLoop conn initialSession reads w) as [[r w1] e1].
  cbn [snd] in Hloop. destruct r as [st|]; [|exact Hloop].
  rewrite closeAll_run. run_monad. rewrite forwards_app.
  rewrite closes_no_forward. lia.
Qed.

(** C1 (amended): before a search the forwarder runs exactly when the
    flag is clear, whatever the bound DN; and a bind in whose envelope
    the evaluator finds no empty octet string neither forwards nor
    touches the flag, so that the first search after such a bind on a
    fresh connection does forward. *)
Theorem search_forwards_iff_flag_clear :
  request_tags_distinct ->
  (forall (conn : Conn) (st : Session) (packet idNode req : Packet)
          (rest : list Packet) (messageID : Z) (w : W),
      Children packet = idNode :: req :: rest ->
      Value idNode = VUint64 messageID ->
      ClassType req = ClassApplication ->
      Tag req = ApplicationSearchRequest ->
      forwards (snd (handlePacket conn st packet w))
      = (if isSentBindDn st then 0 else 1)%nat /\
      exists tail,
        snd (handlePacket conn st packet w)
        = (if isSentBindDn st then [] else forwardEvents conn w) ++ tail /\
        forwards tail = 0%nat) /\
  (forall (conn : Conn) (st : Session) (packet idNode req : Packet)
          (rest : list Packet) (messageID : Z) (w : W) (flow : Flow)
          (st' : Session) (w' : W) (ev : list Event),
      Children packet = idNode :: req :: rest ->
      Value idNode = VUint64 messageID ->
      ClassType req = ClassApplication ->
      Tag req = ApplicationBindRequest ->
      judgeBindDnIsEmpty packet false = false ->
      handlePacket conn st packet w = (Ok (flow, st'), w', ev) ->
      isSentBindDn st' = isSentBindDn st /\ forwards ev = 0%nat).
Proof.
  intros Hd. split.
  - intros conn st packet idNode req rest messageID w Hc Hid Hcl Ht.
    rewrite (handlePacket_dispatch conn st packet idNode req rest
               messageID w Hc Hid Hcl).
    unfold dispatch.
    rewrite (tag_eqb_false 1 0 _ Hd) by (try lia; exact Ht).
    rewrite Ht, Z.eqb_refl. unfold searchCase.
    destruct st as [dn0 [|]]; split_run;
      (split; [reflexivity | eexists; split; reflexivity]).
  - intros conn st packet idNode req rest messageID w flow st' w' ev
           Hc Hid Hcl Ht Hj.
    rewrite (handlePacket_dispatch conn st packet idNode req rest
               messageID w Hc Hid Hcl).
    unfold dispatch. rewrite Ht, Z.eqb_refl. unfold bindCase.
    rewrite Hj. destruct st as [dn0 sent0].
    split_run; close_run; split; reflexivity.
Qed.

(** C2 (amended): after a bind read from the wire the forwarder runs
    exactly when the bind response went out (the turn did not stop on a
    malformed DN or a failed send) and the evaluator finds an empty octet
    string in the envelope; the result code of the bind does not matter. *)
Theorem bind_forwards_iff_judged_empty (conn : Conn) (st : Session)
    (packet idNode req : Packet) (rest : list Packet) (messageID : Z)
    (w : W) :
  Children packet = idNode :: req :: rest ->
  Value idNode = VUint64 messageID ->
  ClassType req = ClassApplication ->
  Tag req = ApplicationBindRequest ->
  let answer := HandleBindRequest req conn (countBinds 1 w) in
  let dnOk :=
    if fst answer =? LDAPResultSuccess
    then match nth_error (Children req) 1 with
         | Some c => snd (assertString (Value c))
         | None => false
         end
    else true in
  let failed :=
    fst (sendPacket conn (encodeBindResponse messageID (fst answer))
           (snd answer)) in
  forwards (snd (handlePacket conn st packet w))
  = (if dnOk && negb failed && judgeBindDnIsEmpty packet false
     then 1 else 0)%nat.
Proof.
  intros Hc Hid Hcl Ht. cbv zeta.
  rewrite (handlePacket_dispatch conn st packet idNode req rest
             messageID w Hc Hid Hcl).
  unfold dispatch. rewrite Ht, Z.eqb_refl. unfold bindCase.
  destruct st as [dn0 sent0].
  split_run; reflexivity.
Qed.

(** *** The forwarder, the chains and the search, turn by turn *)

(** X1: the forwarder never panics and always makes the same three
    calls; it reports success exactly when the bind chain answered
    success and the response went out, and it replaces the bound DN by
    [BindDn] exactly when the chain answered success, also when the send
    then failed. *)
Theorem forwarder_outcome (conn : Conn) (dn : string) (w : W) :
  exists (code : Z) (failed : bool) (w' : W),
    sendBindDnRequest conn dn w
    = (Ok ((code =? LDAPResultSuccess) && negb failed,
           if code =? LDAPResultSuccess then BindDn else dn),
       w',
       [EvCountBinds 1; EvBind Synthetic forwardedRequest conn code;
        EvSend conn (encodeBindResponse 0 code) failed]) /\
    (code, failed) = (fst (forwardAnswer conn w), fst (forwardSend conn w)).
Proof.
  rewrite sendBindDnRequest_run. unfold forwardEvents.
  do 3 eexists. split; reflexivity.
Qed.

Ltac skip_tags i Hd Ht :=
  unfold dispatch;
  rewrite ?(tag_eqb_false i 0 _ Hd) by (try lia; exact Ht);
  rewrite ?(tag_eqb_false i 1 _ Hd) by (try lia; exact Ht);
  rewrite ?(tag_eqb_false i 2 _ Hd) by (try lia; exact Ht);
  rewrite ?(tag_eqb_false i 3 _ Hd) by (try lia; exact Ht);
  rewrite ?(tag_eqb_false i 4 _ Hd) by (try lia; exact Ht);
  rewrite ?(tag_eqb_false i 5 _ Hd) by (try lia; exact Ht);
  rewrite ?(tag_eqb_false i 6 _ Hd) by (try lia; exact Ht);
  rewrite ?(tag_eqb_false i 7 _ Hd) by (try lia; exact Ht);
  rewrite ?(tag_eqb_false i 8 _ Hd) by (try lia; exact Ht);
  rewrite Ht, Z.eqb_refl.

(** X2: an extended, add, modify, delete, modify-DN or compare request
    calls its own chain once with the current bound DN and answers with
    one response of the matching response tag, carrying the request's
    identifier, the chain's code and the name of that code; the bound DN
    and the flag are untouched and the loop goes on exactly when the send
    went through. *)
Theorem chain_request_routed (conn : Conn) (st : Session)
    (packet idNode req : Packet) (rest : list Packet) (messageID : Z)
    (w : W) (tag : Z) (c : Chain)
    (handle : Packet -> string -> Conn -> W -> Z * W) (responseType : Z) :
  request_tags_distinct ->
  In (tag, c, handle, responseType) chainTable ->
  Children packet = idNode :: req :: rest ->
  Value idNode = VUint64 messageID ->
  ClassType req = ClassApplication ->
  Tag req = tag ->
  let answer := handle req (boundDN st) conn w in
  let response :=
    encodeLDAPResponse messageID responseType (fst answer)
      (LDAPResultCodeMap (fst answer)) in
  let s := sendPacket conn response (snd answer) in
  handlePacket conn st packet w
  = (Ok (if fst s then BreakHandler else Continue, st), snd s,
     [EvChain c req (boundDN st) conn (fst answer);
      EvSend conn response (fst s)]).
Proof.
  intros Hd Hin Hc Hid Hcl Ht. cbv zeta.
  rewrite (handlePacket_dispatch conn st packet idNode req rest messageID w
             Hc Hid Hcl).
  unfold chainTable in Hin. cbn [In] in Hin.
  destruct Hin as [Hin|[Hin|[Hin|[Hin|[Hin|[Hin|[]]]]]]];
    injection Hin as <- <- <- <-;
    [ skip_tags 3%nat Hd Ht | skip_tags 5%nat Hd Ht | skip_tags 6%nat Hd Ht
    | skip_tags 7%nat Hd Ht | skip_tags 8%nat Hd Ht | skip_tags 9%nat Hd Ht ];
    unfold chainCase; run_monad;
    match goal with
    | |- context [?h req (boundDN st) conn w] =>
        destruct (h req (boundDN st) conn w) as [code w1]
    end;
    cbn [fst snd];
    match goal with
    | |- context [sendPacket conn ?p ?x] =>
        destruct (sendPacket conn p x) as [[|] w2]
    end; reflexivity.
Qed.

Lemma decodedControls_rest (packet idNode req : Packet)
    (rest : list Packet) :
  Children packet = idNode :: req :: rest ->
  decodedControls packet
  = match rest with c :: _ => map DecodeControl (Children c) | [] => [] end.
Proof. intros Hc. unfold decodedControls. now rewrite Hc. Qed.

(** X3: on a connection whose flag is set a search request runs the
    search chain once, under the current bound DN, with the request's
    identifier and the controls decoded from the third child.  Without an
    error the done message carries success and the loop goes on when it
    was sent; with an error of the package the done message carries its
    code and the loop ends whether or not it was sent; an error of
    another type panics before anything is sent. *)
Theorem search_turn_with_flag_set (conn : Conn) (st : Session)
    (packet idNode req : Packet) (rest : list Packet) (messageID : Z)
    (w : W) :
  request_tags_distinct ->
  Children packet = idNode :: req :: rest ->
  Value idNode = VUint64 messageID ->
  ClassType req = ClassApplication ->
  Tag req = ApplicationSearchRequest ->
  isSentBindDn st = true ->
  let controls := decodedControls packet in
  let answer :=
    HandleSearchRequest req controls messageID (boundDN st) conn
      (countSearches 1 w) in
  let called err :=
    [EvCountSearches 1;
     EvSearch req controls messageID (boundDN st) conn err] in
  handlePacket conn st packet w
  = match fst answer with
    | None =>
        let done := encodeSearchDone messageID LDAPResultSuccess in
        let s := sendPacket conn done (snd answer) in
        (Ok (if fst s then BreakHandler else Continue, st), snd s,
         called None ++ [EvSend conn done (fst s)])
    | Some (LdapError code) =>
        let done := encodeSearchDone messageID code in
        let s := sendPacket conn done (snd answer) in
        (Ok (BreakHandler, st), snd s,
         called (Some (LdapError code)) ++ [EvSend conn done (fst s)])
    | Some ForeignError =>
        (Panicked, snd answer, called (Some ForeignError))
    end.
Proof.
  intros Hd Hc Hid Hcl Ht Hflag. cbv zeta.
  rewrite (decodedControls_rest packet idNode req rest Hc).
  rewrite (handlePacket_dispatch conn st packet idNode req rest messageID w
             Hc Hid Hcl).
  skip_tags 1%nat Hd Ht. unfold searchCase. rewrite Hflag.
  run_monad.
  destruct (HandleSearchRequest req _ messageID (boundDN st) conn
              (countSearches 1 w)) as [[[code|]|] w1];
    cbn [fst snd app]; run_monad; try reflexivity;
    match goal with
    | |- context [sendPacket conn ?p ?x] =>
        destruct (sendPacket conn p x) as [[|] w2]
    end; reflexivity.
Qed.

(** X4: on a connection whose flag is clear a search request first runs
    the forwarder.  When the forwarding goes through, the rest of the turn
    is the same search on a connection bound as [BindDn] with the flag
    set, whatever the bound DN was; when it fails the loop ends with no
    search chain call and the flag still clear. *)
Theorem search_turn_forwards_first (conn : Conn) (st : Session)
    (packet idNode req : Packet) (rest : list Packet) (messageID : Z)
    (w : W) :
  request_tags_distinct ->
  Children packet = idNode :: req :: rest ->
  Value idNode = VUint64 messageID ->
  ClassType req = ClassApplication ->
  Tag req = ApplicationSearchRequest ->
  isSentBindDn st = false ->
  let code := fst (forwardAnswer conn w) in
  let failed := fst (forwardSend conn w) in
  let w1 := snd (forwardSend conn w) in
  handlePacket conn st packet w
  = if (code =? LDAPResultSuccess) && negb failed
    then match handlePacket conn (mkSession BindDn true) packet w1 with
         | (r, w2, ev) => (r, w2, forwardEvents conn w ++ ev)
         end
    else (Ok (BreakHandler,
              mkSession (if code =? LDAPResultSuccess
                         then BindDn else boundDN st) false),
          w1, forwardEvents conn w).
Proof.
  intros Hd Hc Hid Hcl Ht Hflag. cbv zeta.
  rewrite (handlePacket_dispatch conn st packet idNode req rest messageID w
             Hc Hid Hcl).
  rewrite (handlePacket_dispatch conn (mkSession BindDn true) packet idNode
             req rest messageID (snd (forwardSend conn w)) Hc Hid Hcl).
  skip_tags 1%nat Hd Ht. unfold searchCase. rewrite Hflag.
  cbn [isSentBindDn boundDN negb]. run_monad.
  rewrite sendBindDnRequest_run. cbn [fst snd].
  destruct (fst (forwardAnswer conn w) =? LDAPResultSuccess);
    destruct (fst (forwardSend conn w)); cbn [andb negb fst snd];
    run_monad; rewrite ?app_nil_r; try reflexivity.
  match goal with
  | |- context [HandleSearchRequest req ?cs messageID ?d conn ?x] =>
      destruct (HandleSearchRequest req cs messageID d conn x)
        as [[[code|]|] w2]
  end; cbn [fst snd app]; run_monad; try reflexivity;
    match goal with
    | |- context [sendPacket conn ?p ?x] =>
        destruct (sendPacket conn p x) as [[|] w3]
    end; reflexivity.
Qed.

(** *** The bind turn *)

Ltac bind_tail :=
  run_monad;
  match goal with
  | |- context [sendPacket ?c ?p ?x] =>
      destruct (sendPacket c p x) as [[|] ?]
  end; cbn [fst snd]; run_monad; [reflexivity|];
  match goal with
  | |- context [judgeBindDnIsEmpty ?pk false] =>
      destruct (judgeBindDnIsEmpty pk false)
  end; run_monad; [|reflexivity];
  rewrite sendBindDnRequest_run; cbn [fst snd];
  match goal with
  | |- context [forwardAnswer ?c ?x] =>
      destruct (fst (forwardAnswer c x) =? LDAPResultSuccess);
      destruct (fst (forwardSend c x))
  end; cbn [andb negb]; run_monad; reflexivity.

(** X5: a bind the chain answers with success needs a string in the
    second child of the request.  Without a second child the turn panics
    after the chain call; with a second child of another type the loop
    ends with the bound DN reset to the empty string.  Either way no bind
    response is sent. *)
Theorem bind_success_needs_string_dn (conn : Conn) (st : Session)
    (packet idNode req : Packet) (rest : list Packet) (messageID : Z)
    (w : W) :
  Children packet = idNode :: req :: rest ->
  Value idNode = VUint64 messageID ->
  ClassType req = ClassApplication ->
  Tag req = ApplicationBindRequest ->
  let answer := HandleBindRequest req conn (countBinds 1 w) in
  let called := [EvCountBinds 1; EvBind Wire req conn (fst answer)] in
  fst answer = LDAPResultSuccess ->
  (nth_error (Children req) 1 = None ->
   handlePacket conn st packet w = (Panicked, snd answer, called)) /\
  (forall c, nth_error (Children req) 1 = Some c ->
             (forall s, Value c <> VString s) ->
             handlePacket conn st packet w
             = (Ok (BreakHandler, mkSession EmptyString (isSentBindDn st)),
                snd answer, called)).
Proof.
  intros Hc Hid Hcl Ht. cbv zeta. intros Hok.
  rewrite (handlePacket_dispatch conn st packet idNode req rest messageID w
             Hc Hid Hcl).
  unfold dispatch. rewrite Ht, Z.eqb_refl. unfold bindCase.
  run_monad.
  destruct (HandleBindRequest req conn (countBinds 1 w)) as [code w1].
  cbn [fst snd] in *. subst code. rewrite Z.eqb_refl.
  split.
  - intros Hnone. unfold nth_error in Hnone.
    destruct (Children req) as [|c0 [|c1 l]]; try discriminate Hnone;
      reflexivity.
  - intros c Hsome Hns. unfold nth_error in Hsome.
    destruct (Children req) as [|c0 [|c1 l]]; try discriminate Hsome.
    injection Hsome as ->.
    destruct (Value c) as [| | | |s]; try reflexivity.
    now elim (Hns s).
Qed.

(** X6: a bind whose DN is settled (the request's string DN when the
    chain answered success, the old bound DN otherwise) always gets its
    bind response, under the request's identifier and with the chain's
    code.  If the send fails the loop ends; if the evaluator finds no
    empty octet string the loop goes on with that DN; otherwise the
    forwarder runs next, and the turn ends bound as [BindDn] with the flag
    set when the forwarding went through, and ends the loop when not. *)
Theorem bind_turn_outcome (conn : Conn) (st : Session)
    (packet idNode req : Packet) (rest : list Packet) (messageID : Z)
    (w : W) (dn : string) :
  Children packet = idNode :: req :: rest ->
  Value idNode = VUint64 messageID ->
  ClassType req = ClassApplication ->
  Tag req = ApplicationBindRequest ->
  let answer := HandleBindRequest req conn (countBinds 1 w) in
  let code := fst answer in
  (if code =? LDAPResultSuccess
   then exists c, nth_error (Children req) 1 = Some c /\ Value c = VString dn
   else dn = boundDN st) ->
  let response := encodeBindResponse messageID code in
  let s := sendPacket conn response (snd answer) in
  let answered :=
    [EvCountBinds 1; EvBind Wire req conn code;
     EvSend conn response (fst s)] in
  let fcode := fst (forwardAnswer conn (snd s)) in
  let ffailed := fst (forwardSend conn (snd s)) in
  let fdn := if fcode =? LDAPResultSuccess then BindDn else dn in
  handlePacket conn st packet w
  = if fst s
    then (Ok (BreakHandler, mkSession dn (isSentBindDn st)), snd s, answered)
    else if judgeBindDnIsEmpty packet false
    then (Ok (if (fcode =? LDAPResultSuccess) && negb ffailed
              then (Continue, mkSession fdn true)
              else (BreakHandler, mkSession fdn (isSentBindDn st))),
          snd (forwardSend conn (snd s)),
          answered ++ forwardEvents conn (snd s))
    else (Ok (Continue, mkSession dn (isSentBindDn st)), snd s, answered).
Proof.
  intros Hc Hid Hcl Ht. cbv zeta. intros Hdn.
  rewrite (handlePacket_dispatch conn st packet idNode req rest messageID w
             Hc Hid Hcl).
  unfold dispatch. rewrite Ht, Z.eqb_refl. unfold bindCase.
  run_monad.
  destruct (HandleBindRequest req conn (countBinds 1 w)) as [code w1].
  cbn [fst snd] in *.
  destruct (code =? LDAPResultSuccess).
  - destruct Hdn as (c & Hsome & Hv). unfold nth_error in Hsome.
    destruct (Children req) as [|c0 [|c1 l]]; try discriminate Hsome.
    injection Hsome as ->. rewrite Hv. bind_tail.
  - subst dn. bind_tail.
Qed.

(** *** What every turn keeps *)

Ltac split_sends :=
  repeat match goal with
         | |- context [fst (forwardSend ?c ?x)] =>
             destruct (fst (forwardSend c x)) eqn:?
         | b : bool |- _ => destruct b
         end.


Lemma occurrences_app (f : @Event Conn Control Closer -> bool)
    (a b : list (@Event Conn Control Closer)) :
  occurrences f (a ++ b) = (occurrences f a + occurrences f b)%nat.
Proof. unfold occurrences. now rewrite filter_app, length_app. Qed.




(** *** Failed sends *)

Lemma handlePacket_failed_send (conn : Conn) (st : Session)
    (packet : Packet) (w : W) :
  let run := handlePacket conn st packet w in
  callAfterFailedSend (snd run) = false /\
  (existsb isFailedSend (snd run) = true ->
   forall st', fst (fst run) <> Ok (Continue, st')).
Proof.
  cbv zeta. unfold_turn. destruct st as [dn0 sent0].
  destruct (Children packet) as [|idNode [|req rest]];
    split_run; cbn [fst snd]; unfold forwardEvents; split_sends;
    cbn [andb negb] in *; try discriminate;
    (split; [reflexivity | intros Hf st'; first [discriminate Hf | discriminate]]).
Qed.

Lemma callAfterFailedSend_app (a b : list (@Event Conn Control Closer)) :
  callAfterFailedSend a = false ->
  existsb isFailedSend a = false ->
  callAfterFailedSend (a ++ b) = callAfterFailedSend b.
Proof.
  induction a as [|e a IH]; intros Ha Hn; [reflexivity|].
  cbn [existsb] in Hn. apply orb_false_iff in Hn. destruct Hn as [He Hn].
  assert (Ha' : callAfterFailedSend a = false).
  { destruct e as [| | | | | | |c p [|]| |];
      first [exact Ha | discriminate He]. }
  specialize (IH Ha' Hn).
  destruct e as [| | | | | | |c p [|]| |];
    first [exact IH | discriminate He].
Qed.

(** X9: inside the loop a send that fails is the last call made: the
    trace of the loop never has a call after a failed send (the close
    sequence is all that follows). *)
Theorem failed_send_ends_loop (conn : Conn) (reads : list ReadResult)
    (st : Session) (w : W) :
  callAfterFailedSend (snd (handlerLoop conn st reads w)) = false.
Proof.
  revert st w. induction reads as [|r reads IH]; intros st w.
  - reflexivity.
  - destruct r as [packet| |]; cbn [handlerLoop]; try reflexivity.
    unfold bind.
    pose proof (handlePacket_failed_send conn st packet w) as Hstep.
    cbv zeta in Hstep.
    destruct (handlePacket conn st packet w) as [[r w1] e1].
    cbn [fst snd] in Hstep. destruct Hstep as [Hafter Hfailed].
    destruct r as [[[|] st1]|]; cbn [snd ret]; rewrite ?app_nil_r;
      try exact Hafter.
    specialize (IH st1 w1).
    destruct (handlerLoop conn st1 reads w1) as [[r2 w2] e2].
    cbn [snd] in *.
    rewrite callAfterFailedSend_app; try assumption.
    destruct (existsb isFailedSend e1) eqn:Hex; [|reflexivity].
    now elim (Hfailed eq_refl st1).
Qed.

(** *** The bound DN and the flag over a connection *)

Lemma forwardedOk_forwards (ev : list (@Event Conn Control Closer)) :
  forwardedOk ev = true -> (1 <= forwards ev)%nat.
Proof.
  unfold forwards.
  induction ev as [|e ev IH]; intros H; [discriminate H|].
  destruct e as [| | |[|] r c code| | | | | |];
    cbn [filter isForward List.length]; try (specialize (IH H)); try lia.
Qed.

Lemma handlerLoop_state (conn : Conn) (reads : list ReadResult) :
  forall (st : Session) (w : W) (st' : Session) (w' : W)
         (ev : list Event),
    handlerLoop conn st reads w = (Ok st', w', ev) ->
    (boundDN st' <> boundDN st -> existsb isBindSuccess ev = true) /\
    (isSentBindDn st = true -> isSentBindDn st' = true) /\
    (isSentBindDn st = false -> isSentBindDn st' = true ->
     (1 <= forwards ev)%nat).
Proof.
  induction reads as [|r reads IH]; intros st w st' w' ev Hrun.
  - injection Hrun as <- <- <-. repeat split; intros; congruence.
  - destruct r as [packet| |]; cbn [handlerLoop] in Hrun;
      try (injection Hrun as <- <- <-; repeat split; intros; congruence).
    unfold bind in Hrun.
    destruct (handlePacket conn st packet w) as [[r w1] e1] eqn:Hturn.
    destruct r as [[flow st1]|]; [|discriminate Hrun].
    destruct (handlePacket_state conn st packet w flow st1 w1 e1 Hturn)
      as (Hdn & Hflag & _).
    assert (Hsent : isSentBindDn st = false -> isSentBindDn st1 = true ->
                    (1 <= forwards e1)%nat).
    { intros H0 H1. apply forwardedOk_forwards.
      rewrite Hflag, H0 in H1. exact H1. }
    destruct flow.
    + destruct (handlerLoop conn st1 reads w1) as [[r2 w2] e2] eqn:Hrest.
      injection Hrun as -> <- <-.
      destruct (IH st1 w1 st' w2 e2 Hrest) as (IHdn & IHkeep & IHset).
      split; [|split].
      * intros Hne. rewrite existsb_app.
        destruct (string_dec (boundDN st1) (boundDN st)) as [Heq|Hne1].
        -- rewrite IHdn by congruence. apply orb_true_r.
        -- now rewrite Hdn.
      * intros H1. apply IHkeep. rewrite Hflag, H1. reflexivity.
      * intros H0 H1. rewrite forwards_app.
        destruct (isSentBindDn st1) eqn:H2.
        -- specialize (Hsent H0 eq_refl). lia.
        -- specialize (IHset eq_refl H1). lia.
    + cbn [ret] in Hrun. injection Hrun as <- <- <-. rewrite app_nil_r.
      split; [exact Hdn|split].
      * intros H1. rewrite Hflag, H1. reflexivity.
      * exact Hsent.
Qed.

(** X10: over the loop the flag is never cleared once set, it is set
    only with a forwarder call in the trace, and the bound DN the loop
    ends with differs from the one it started with only if some bind
    chain call answered success; so on a connection where no bind chain
    call answers success the close collaborators are called with the
    empty string. *)
Theorem session_state_over_connection (conn : Conn)
    (reads : list ReadResult) (st : Session) (w : W) (st' : Session)
    (w' : W) (ev : list Event) :
  handlerLoop conn st reads w = (Ok st', w', ev) ->
  (boundDN st' <> boundDN st -> existsb isBindSuccess ev = true) /\
  (isSentBindDn st = true -> isSentBindDn st' = true) /\
  (isSentBindDn st = false -> isSentBindDn st' = true ->
   (1 <= forwards ev)%nat) /\
  (st = initialSession -> existsb isBindSuccess ev = false ->
   closeCalls (snd (handleConnectionAndSendBindDn conn reads w))
   = map (fun c => EvClose c EmptyString conn) CloseFns).
Proof.
  intros Hrun.
  destruct (handlerLoop_state conn reads st w st' w' ev Hrun)
    as (Hdn & Hkeep & Hset).
  repeat (split; [assumption|]).
  intros -> Hnone.
  assert (Hanon : boundDN st' = EmptyString).
  { destruct (string_dec (boundDN st') (boundDN initialSession)) as [H|H];
      [exact H|]. rewrite (Hdn H) in Hnone. discriminate Hnone. }
  pose proof (handlerLoop_no_close conn reads initialSession w) as Hno.
  unfold handleConnectionAndSendBindDn, bind. rewrite Hrun in *.
  rewrite closeAll_run. run_monad. cbn [snd] in *.
  rewrite closeCalls_app, Hno, Hanon. cbn [app]. unfold closeCalls.
  induction CloseFns as [|c fns IH]; cbn [map app filter isClose];
    [reflexivity | now rewrite IH].
Qed.

(** X11: after a turn in which a forwarding went through the connection
    is bound as [BindDn] and the flag is set, whatever was bound before
    and whatever the request was. *)
Theorem forwarding_binds_service_identity (conn : Conn) (st : Session)
    (packet : Packet) (w : W) (flow : Flow) (st' : Session) (w' : W)
    (ev : list Event) :
  handlePacket conn st packet w = (Ok (flow, st'), w', ev) ->
  forwardedOk ev = true ->
  st' = mkSession BindDn true.
Proof.
  unfold_turn. destruct st as [dn0 sent0].
  destruct (Children packet) as [|idNode [|req rest]];
    split_run; close_run; unfold forwardEvents;
    cbn [forwardedOk app]; split_sends; use_tests;
    cbn [andb negb orb] in *; intros Hk;
    first [discriminate | reflexivity].
Qed.

(** *** Reading stops, panics and the order of the trace *)

(** X12: the loop handles the packets in the order they are read and
    never goes back: the trace for a longer input extends the trace for
    any prefix of it, and whatever follows an end of stream or a read
    failure is ignored. *)
Theorem loop_reads_in_order (conn : Conn) (pre post : list ReadResult)
    (st : Session) (w : W) :
  (exists tail,
      snd (handlerLoop conn st (pre ++ post) w)
      = snd (handlerLoop conn st pre w) ++ tail) /\
  handlerLoop conn st (pre ++ ReadEOF :: post) w
  = handlerLoop conn st pre w /\
  handlerLoop conn st (pre ++ ReadFailure :: post) w
  = handlerLoop conn st pre w.
Proof.
  revert st w. induction pre as [|r pre IH]; intros st w.
  - split; [|split; reflexivity]. eexists. reflexivity.
  - destruct r as [packet| |]; cbn [app handlerLoop];
      try (split; [exists []; reflexivity | split; reflexivity]).
    unfold bind.
    destruct (handlePacket conn st packet w) as [[r w1] e1].
    destruct r as [[[|] st1]|];
      try (split; [exists []; now rewrite app_nil_r | split; reflexivity]).
    destruct (IH st1 w1) as ((tail & Htail) & -> & ->).
    split; [|split; reflexivity].
    destruct (handlerLoop conn st1 (pre ++ post) w1) as [[r2 w2] e2].
    destruct (handlerLoop conn st1 pre w1) as [[r3 w3] e3].
    cbn [snd] in *. subst e2. exists tail. now rewrite app_assoc.
Qed.

Lemma handlePacket_no_connClose (conn : Conn) (st : Session)
    (packet : Packet) (w : W) :
  occurrences isConnClose (snd (handlePacket conn st packet w)) = 0%nat.
Proof.
  unfold_turn. destruct st as [dn0 sent0].
  destruct (Children packet) as [|idNode [|req rest]];
    split_run; reflexivity.
Qed.

Lemma handlerLoop_no_connClose (conn : Conn) (reads : list ReadResult) :
  forall (st : Session) (w : W),
    occurrences isConnClose (snd (handlerLoop conn st reads w)) = 0%nat.
Proof.
  induction reads as [|r reads IH]; intros st w.
  - reflexivity.
  - destruct r as [packet| |]; cbn [handlerLoop]; try reflexivity.
    unfold bind.
    pose proof (handlePacket_no_connClose conn st packet w) as Hstep.
    destruct (handlePacket conn st packet w) as [[r w1] e1].
    cbn [snd] in Hstep.
    destruct r as [[[|] st1]|]; cbn [snd ret];
      rewrite ?app_nil_r; try assumption.
    specialize (IH st1 w1).
    destruct (handlerLoop conn st1 reads w1) as [[r2 w2] e2].
    cbn [snd] in *. rewrite occurrences_app, Hstep, IH. reflexivity.
Qed.

(** X13: a panic inside the loop takes the whole function down with it:
    the trace stops where the loop stopped, no close collaborator is
    called and the connection is not closed.  When the loop is left
    instead, the connection is closed exactly once, as the last call. *)
Theorem panic_skips_close_sequence (conn : Conn) (reads : list ReadResult)
    (w : W) :
  (forall w1 e1,
      handlerLoop conn initialSession reads w = (Panicked, w1, e1) ->
      handleConnectionAndSendBindDn conn reads w = (Panicked, w1, e1) /\
      closeCalls e1 = [] /\ occurrences isConnClose e1 = 0%nat) /\
  (forall st w1 ev,
      handleConnectionAndSendBindDn conn reads w = (Ok st, w1, ev) ->
      occurrences isConnClose ev = 1%nat /\
      exists ev', ev = ev' ++ [EvConnClose conn]).
Proof.
  pose proof (handlerLoop_no_close conn reads initialSession w) as Hno.
  pose proof (handlerLoop_no_connClose conn reads initialSession w) as Hnc.
  unfold handleConnectionAndSendBindDn, bind.
  destruct (handlerLoop conn initialSession reads w) as [[r w0] e0].
  cbn [snd] in *. split.
  - intros w1 e1 Hp. injection Hp as -> <- <-. repeat split; assumption.
  - intros st w1 ev Hrun. destruct r as [st0|]; [|discriminate Hrun].
    rewrite closeAll_run in Hrun. revert Hrun. run_monad. intros Hrun.
    injection Hrun as <- <- <-. split.
    + rewrite occurrences_app, Hnc. unfold occurrences.
      induction CloseFns as [|c fns IH]; cbn [map app filter isConnClose];
        [reflexivity | exact IH].
    + exists (e0 ++ map (fun c => EvClose c (boundDN st0) conn) CloseFns).
      now rewrite <- app_assoc.
Qed.


End SessionProperties.

(** ** The evaluator on subtrees *)

Lemma nodes_trans (p : Packet) :
  forall n m, In n (nodes p) -> In m (nodes n) -> In m (nodes p).
Proof.
  induction p as [p IH] using Packet_tree_ind. intros n m Hn Hm.
  destruct p as [c t g v d cs ds]. cbn [nodes Children] in *.
  destruct Hn as [<- | Hn]; [exact Hm|].
  right. apply in_flat_map in Hn. destruct Hn as (child & Hchild & Hn).
  apply in_flat_map. exists child. split; [exact Hchild|].
  rewrite Forall_forall in IH. exact (IH child Hchild n m Hn Hm).
Qed.

(** X14: the evaluator only ever raises its flag (a flag that comes in
    raised stays raised, and the answer is the incoming flag or-ed with
    the answer from [false]), and what it finds in any subtree it finds
    in the whole tree: an empty octet string inside a control, or
    anywhere else in the envelope the loop passes, makes the bind judged
    empty. *)
Theorem evaluator_raises_only_and_sees_subtrees (p : Packet) :
  judgeBindDnIsEmpty p true = true /\
  (forall r, judgeBindDnIsEmpty p r = r || judgeBindDnIsEmpty p false) /\
  (forall n, In n (nodes p) -> judgeBindDnIsEmpty n false = true ->
             judgeBindDnIsEmpty p false = true).
Proof.
  split; [|split].
  - now rewrite judgeBindDnIsEmpty_orb.
  - intros r. now rewrite (judgeBindDnIsEmpty_orb p r),
                          (judgeBindDnIsEmpty_orb p false).
  - intros n Hn. rewrite !judgeBindDnIsEmpty_orb. cbn [orb].
    rewrite !existsb_exists. intros (m & Hm & Hempty).
    exists m. split; [|exact Hempty]. exact (nodes_trans p n m Hn Hm).
Qed.

(** * The properties on the concrete server *)

Ltac prove_distinct :=
  unfold request_tags_distinct, request_tags; cbn;
  repeat (constructor; [cbn [In]; intuition discriminate|]);
  constructor.

Lemma search_forwards_iff_flag_clear_witness :
  @request_tags_distinct rfc4511 /\
  forwards (snd (handlePacket (K := rfc4511) (E := scripted) conn0
                   (mkSession "cn=alice" false)
                   (envelope 2 (bareRequest 3)) []))
  = 1%nat /\
  forwards (snd (handlePacket (K := rfc4511) (E := scripted) conn0
                   (mkSession "cn=alice" true)
                   (envelope 2 (bareRequest 3)) []))
  = 0%nat.
Proof.
  assert (Hd : @request_tags_distinct rfc4511) by prove_distinct.
  split; [exact Hd|].
  destruct (search_forwards_iff_flag_clear (K := rfc4511) (E := scripted) Hd)
    as [Hsearch _].
  split.
  - exact (proj1 (Hsearch conn0 (mkSession "cn=alice" false)
                    (envelope 2 (bareRequest 3)) _ _ _ 2 []
                    eq_refl eq_refl eq_refl eq_refl)).
  - exact (proj1 (Hsearch conn0 (mkSession "cn=alice" true)
                    (envelope 2 (bareRequest 3)) _ _ _ 2 []
                    eq_refl eq_refl eq_refl eq_refl)).
Defined.

(** C1 fails as stated: a bind with DN cn=alice, in whose envelope the
    evaluator finds no empty octet string, succeeds and leaves the
    connection bound with the flag clear; the search that follows runs
    the forwarder all the same. *)
Lemma search_after_successful_bind_forwards :
  judgeBindDnIsEmpty (envelope 1 (simpleBind "cn=alice" "pw")) false = false /\
  handlePacket (K := rfc4511) (E := scripted) conn0 initialSession
    (envelope 1 (simpleBind "cn=alice" "pw")) []
  = (Ok (Continue, mkSession "cn=alice" false), [],
     [EvCountBinds 1;
      EvBind Wire (simpleBind "cn=alice" "pw") conn0 0;
      EvSend conn0 (encodeBindResponse (Collaborators := scripted) 1 0)
        false]) /\
  forwards (snd (handlePacket (K := rfc4511) (E := scripted) conn0
                   (mkSession "cn=alice" false)
                   (envelope 2 (bareRequest 3)) []))
  = 1%nat /\
  forwards (snd (handleConnectionAndSendBindDn (K := rfc4511)
                   (E := scripted) conn0
                   [ReadPacket (envelope 1 (simpleBind "cn=alice" "pw"));
                    ReadPacket (envelope 2 (bareRequest 3))] []))
  = 1%nat.
Proof. vm_compute. repeat split. Qed.

(** C2 fails as stated: the bind chain answers an anonymous bind with
    code 49, the response goes out, and the forwarder runs. *)
Lemma failed_bind_with_empty_dn_forwards :
  snd (handlePacket (K := rfc4511) (E := scripted) conn0 initialSession
         (envelope 1 (simpleBind EmptyString EmptyString)) [49])
  = [EvCountBinds 1;
     EvBind Wire (simpleBind EmptyString EmptyString) conn0 49;
     EvSend conn0 (encodeBindResponse (Collaborators := scripted) 1 49) false;
     EvCountBinds 1;
     EvBind Synthetic (forwardedRequest (K := rfc4511) (E := scripted))
       conn0 0;
     EvSend conn0 (encodeBindResponse (Collaborators := scripted) 0 0) false]
  /\ 49 <> LDAPResultSuccess (LdapConstants := rfc4511).
Proof. vm_compute. split; [reflexivity | discriminate]. Qed.

(** C3 fails as stated: two anonymous binds in a row make the forwarder
    submit its synthetic bind twice on one connection. *)
Lemma two_anonymous_binds_forward_twice :
  forwards
    (snd (handleConnectionAndSendBindDn (K := rfc4511) (E := scripted) conn0
            [ReadPacket (envelope 1 (simpleBind EmptyString EmptyString));
             ReadPacket (envelope 2 (simpleBind EmptyString EmptyString))]
            []))
  = 2%nat.
Proof. vm_compute. reflexivity. Qed.

(** C5 fails as stated: the first message is a search, the bind chain
    answers the synthetic bind with code 49; the forwarder has run once
    and the connection ends with the flag still clear. *)
Lemma failed_forwarding_leaves_flag_clear :
  fst (fst (handleConnectionAndSendBindDn (K := rfc4511) (E := scripted)
              conn0 [ReadPacket (envelope 1 (bareRequest 3))] [49]))
  = Ok (mkSession EmptyString false) /\
  forwards
    (snd (handleConnectionAndSendBindDn (K := rfc4511) (E := scripted) conn0
            [ReadPacket (envelope 1 (bareRequest 3))] [49]))
  = 1%nat.
Proof. vm_compute. split; reflexivity. Qed.

Lemma bind_forwards_iff_judged_empty_witness :
  Tag (simpleBind EmptyString EmptyString)
  = ApplicationBindRequest (LdapConstants := rfc4511) /\
  forwards (snd (handlePacket (K := rfc4511) (E := scripted) conn0
                   initialSession
                   (envelope 1 (simpleBind EmptyString EmptyString)) [49]))
  = 1%nat /\
  forwards (snd (handlePacket (K := rfc4511) (E := scripted) conn0
                   initialSession
                   (envelope 1 (simpleBind "cn=alice" "pw")) []))
  = 0%nat.
Proof.
  split; [reflexivity|]. split.
  - exact (bind_forwards_iff_judged_empty (K := rfc4511) (E := scripted)
             conn0 initialSession
             (envelope 1 (simpleBind EmptyString EmptyString)) _ _ _ 1 [49]
             eq_refl eq_refl eq_refl eq_refl).
  - exact (bind_forwards_iff_judged_empty (K := rfc4511) (E := scripted)
             conn0 initialSession
             (envelope 1 (simpleBind "cn=alice" "pw")) _ _ _ 1 []
             eq_refl eq_refl eq_refl eq_refl).
Defined.

Lemma flag_set_by_forwarding_that_went_through_witness :
  handlePacket (K := rfc4511) (E := scripted) conn0 initialSession
    (envelope 1 (bareRequest 3)) [49]
  = (Ok (BreakHandler, mkSession EmptyString false), [],
     forwardEvents (K := rfc4511) (E := scripted) conn0 [49]) /\
  forwardedOk (K := rfc4511)
    (forwardEvents (K := rfc4511) (E := scripted) conn0 [49]) = false /\
  isSentBindDn
    (snd (match fst (fst (handlePacket (K := rfc4511) (E := scripted) conn0
                            initialSession (envelope 1 (bareRequest 3)) []))
          with
          | Ok r => r
          | Panicked => (BreakHandler, initialSession)
          end))
  = false || true.
Proof.
  split; [reflexivity|]. split; [reflexivity|].
  exact (proj1 (proj2
    (flag_set_by_forwarding_that_went_through (K := rfc4511) (E := scripted)
       conn0 initialSession (envelope 1 (bareRequest 3)) []
       Continue (mkSession "cn=service,dc=example" true) []
       (forwardEvents (K := rfc4511) (E := scripted) conn0 [] ++
        [EvCountSearches 1;
         EvSearch (bareRequest 3) [] 1 "cn=service,dc=example" conn0 None;
         EvSend conn0 (encodeSearchDone (Collaborators := scripted) 1 0)
           false])
       eq_refl))).
Defined.

Lemma malformed_envelope_ends_session_witness :
  (List.length (Children (bareRequest 0)) < 2)%nat /\
  handlerLoop (K := rfc4511) (E := scripted) conn0 initialSession
    [ReadPacket (bareRequest 0); ReadPacket (envelope 1 (bareRequest 3))] []
  = (Ok initialSession, [], []).
Proof.
  assert (H : (List.length (Children (bareRequest 0)) < 2)%nat)
    by (simpl; lia).
  split; [exact H|].
  exact (proj2 (malformed_envelope_ends_session (K := rfc4511)
                  (E := scripted) conn0 initialSession (bareRequest 0)
                  [ReadPacket (envelope 1 (bareRequest 3))] []
                  (or_introl H))).
Defined.

Lemma unsupported_operation_answer_witness :
  ~ In (Tag (bareRequest 99)) (@request_tags rfc4511) /\
  handlerLoop (K := rfc4511) (E := scripted) conn0 initialSession
    [ReadPacket (envelope 5 (bareRequest 99));
     ReadPacket (envelope 6 (bareRequest 3))] []
  = (Ok initialSession, [],
     [EvSend conn0
        (encodeLDAPResponse (Collaborators := scripted) 5 9 1
           "Unsupported operation: add") false]).
Proof.
  assert (H : ~ In (Tag (bareRequest 99)) (@request_tags rfc4511))
    by (simpl; intuition discriminate).
  split; [exact H|].
  exact (proj2 (unsupported_operation_answer (K := rfc4511) (E := scripted)
                  conn0 initialSession (envelope 5 (bareRequest 99)) _ _ _ 5
                  [ReadPacket (envelope 6 (bareRequest 3))] []
                  eq_refl eq_refl eq_refl H)).
Defined.



Lemma judgeBindDnIsEmpty_iff_empty_octet_node_witness :
  (exists n, In n (nodes (envelope 1 (simpleBind EmptyString "pw"))) /\
             emptyOctetString n) /\
  judgeBindDnIsEmpty (envelope 1 (simpleBind "cn=alice" "pw")) false = false.
Proof.
  split.
  - exact (proj1 (proj1 (judgeBindDnIsEmpty_iff_empty_octet_node
                           (envelope 1 (simpleBind EmptyString "pw"))))
                 eq_refl).
  - apply (proj2 (judgeBindDnIsEmpty_iff_empty_octet_node
                    (envelope 1 (simpleBind "cn=alice" "pw")))).
    intros n Hin (Hc & Ht & Hg & Hl). simpl in Hin.
    repeat (destruct Hin as [<- | Hin]; [discriminate|]). exact Hin.
Defined.

(** ** Further runs on the concrete servers *)

Lemma chain_request_routed_witness :
  @request_tags_distinct rfc4511 /\
  handlePacket (K := rfc4511) (E := scripted) conn0
    (mkSession "cn=alice" true) (envelope 4 (bareRequest 8)) []
  = (Ok (Continue, mkSession "cn=alice" true), [],
     [EvChain AddChain (bareRequest 8) "cn=alice" conn0 0;
      EvSend conn0
        (encodeLDAPResponse (Collaborators := scripted) 4 9 0 "Success")
        false]).
Proof.
  assert (Hd : @request_tags_distinct rfc4511) by prove_distinct.
  split; [exact Hd|].
  exact (chain_request_routed (K := rfc4511) (E := scripted) conn0
           (mkSession "cn=alice" true) (envelope 4 (bareRequest 8)) _ _ _ 4
           [] 8 AddChain (HandleAddRequest (Collaborators := scripted)) 9
           Hd (or_intror (or_introl eq_refl))
           eq_refl eq_refl eq_refl eq_refl).
Defined.

Lemma search_turn_with_flag_set_witness :
  @request_tags_distinct rfc4511 /\
  handlePacket (K := rfc4511) (E := scripted) conn0
    (mkSession "cn=alice" true) (envelope 2 (bareRequest 3)) []
  = (Ok (Continue, mkSession "cn=alice" true), [],
     [EvCountSearches 1;
      EvSearch (bareRequest 3) [] 2 "cn=alice" conn0 None;
      EvSend conn0 (encodeSearchDone (Collaborators := scripted) 2 0) false]).
Proof.
  assert (Hd : @request_tags_distinct rfc4511) by prove_distinct.
  split; [exact Hd|].
  exact (search_turn_with_flag_set (K := rfc4511) (E := scripted) conn0
           (mkSession "cn=alice" true) (envelope 2 (bareRequest 3)) _ _ _ 2
           [] Hd eq_refl eq_refl eq_refl eq_refl eq_refl).
Defined.

Lemma search_turn_forwards_first_witness :
  @request_tags_distinct rfc4511 /\
  handlePacket (K := rfc4511) (E := scripted) conn0
    (mkSession "cn=alice" false) (envelope 2 (bareRequest 3)) []
  = (Ok (Continue, mkSession "cn=service,dc=example" true), [],
     forwardEvents (K := rfc4511) (E := scripted) conn0 [] ++
     [EvCountSearches 1;
      EvSearch (bareRequest 3) [] 2 "cn=service,dc=example" conn0 None;
      EvSend conn0 (encodeSearchDone (Collaborators := scripted) 2 0) false])
  /\
  handlePacket (K := rfc4511) (E := scripted) conn0
    (mkSession "cn=alice" false) (envelope 2 (bareRequest 3)) [49]
  = (Ok (BreakHandler, mkSession "cn=alice" false), [],
     forwardEvents (K := rfc4511) (E := scripted) conn0 [49]).
Proof.
  assert (Hd : @request_tags_distinct rfc4511) by prove_distinct.
  split; [exact Hd|]. split.
  - exact (search_turn_forwards_first (K := rfc4511) (E := scripted) conn0
             (mkSession "cn=alice" false) (envelope 2 (bareRequest 3)) _ _ _
             2 [] Hd eq_refl eq_refl eq_refl eq_refl eq_refl).
  - exact (search_turn_forwards_first (K := rfc4511) (E := scripted) conn0
             (mkSession "cn=alice" false) (envelope 2 (bareRequest 3)) _ _ _
             2 [49] Hd eq_refl eq_refl eq_refl eq_refl eq_refl).
Defined.

Lemma bind_success_needs_string_dn_witness :
  handlePacket (K := rfc4511) (E := trusting) conn0
    (mkSession "cn=alice" true) (envelope 1 (bareRequest 0)) []
  = (Panicked, [], [EvCountBinds 1; EvBind Wire (bareRequest 0) conn0 0]) /\
  let malformed :=
    mkPacket ClassApplication TypeConstructed 0 VNil []
      [mkPacket ClassUniversal TypePrimitive TagInteger (VUint64 3) [x03] []
         "Version";
       mkPacket ClassUniversal TypePrimitive TagOctetString VNil [] []
         "User Name"] "Bind Request" in
  handlePacket (K := rfc4511) (E := trusting) conn0
    (mkSession "cn=alice" true) (envelope 1 malformed) []
  = (Ok (BreakHandler, mkSession EmptyString true), [],
     [EvCountBinds 1; EvBind Wire malformed conn0 0]).
Proof.
  split.
  - exact (proj1 (bind_success_needs_string_dn (K := rfc4511)
                    (E := trusting) conn0 (mkSession "cn=alice" true)
                    (envelope 1 (bareRequest 0)) _ _ _ 1 []
                    eq_refl eq_refl eq_refl eq_refl eq_refl) eq_refl).
  - intros malformed.
    refine (proj2 (bind_success_needs_string_dn (K := rfc4511)
                     (E := trusting) conn0 (mkSession "cn=alice" true)
                     (envelope 1 malformed) _ _ _ 1 []
                     eq_refl eq_refl eq_refl eq_refl eq_refl) _ eq_refl _).
    intros s. simpl. discriminate.
Defined.

Lemma bind_turn_outcome_witness :
  handlePacket (K := rfc4511) (E := scripted) conn0 initialSession
    (envelope 1 (simpleBind "cn=alice" "pw")) []
  = (Ok (Continue, mkSession "cn=alice" false), [],
     [EvCountBinds 1; EvBind Wire (simpleBind "cn=alice" "pw") conn0 0;
      EvSend conn0 (encodeBindResponse (Collaborators := scripted) 1 0)
        false]) /\
  handlePacket (K := rfc4511) (E := scripted) conn0
    (mkSession "cn=alice" false)
    (envelope 2 (simpleBind EmptyString EmptyString)) [49]
  = (Ok (Continue, mkSession "cn=service,dc=example" true), [],
     [EvCountBinds 1;
      EvBind Wire (simpleBind EmptyString EmptyString) conn0 49;
      EvSend conn0 (encodeBindResponse (Collaborators := scripted) 2 49)
        false] ++ forwardEvents (K := rfc4511) (E := scripted) conn0 []).
Proof.
  split.
  - refine (bind_turn_outcome (K := rfc4511) (E := scripted) conn0
              initialSession (envelope 1 (simpleBind "cn=alice" "pw")) _ _ _
              1 [] "cn=alice" eq_refl eq_refl eq_refl eq_refl _).
    simpl. eexists. split; reflexivity.
  - refine (bind_turn_outcome (K := rfc4511) (E := scripted) conn0
              (mkSession "cn=alice" false)
              (envelope 2 (simpleBind EmptyString EmptyString)) _ _ _
              2 [49] "cn=alice" eq_refl eq_refl eq_refl eq_refl _).
    simpl. reflexivity.
Defined.


Lemma session_state_over_connection_witness :
  closeCalls
    (snd (handleConnectionAndSendBindDn (K := rfc4511) (E := scripted) conn0
            [ReadPacket (envelope 1 (simpleBind "cn=alice" "pw"));
             ReadPacket (envelope 2 (bareRequest 2))] [49]))
  = [EvClose "audit" EmptyString conn0; EvClose "metrics" EmptyString conn0].
Proof.
  exact (proj2 (proj2 (proj2
    (session_state_over_connection (K := rfc4511) (E := scripted) conn0
       [ReadPacket (envelope 1 (simpleBind "cn=alice" "pw"));
        ReadPacket (envelope 2 (bareRequest 2))]
       initialSession [49] initialSession [] _ eq_refl)))
    eq_refl eq_refl).
Defined.

Lemma forwarding_binds_service_identity_witness :
  mkSession "cn=service,dc=example" true
  = mkSession (BindDn (Collaborators := scripted)) true.
Proof.
  exact (forwarding_binds_service_identity (K := rfc4511) (E := scripted)
           conn0 (mkSession "cn=alice" false) (envelope 2 (bareRequest 3)) []
           Continue (mkSession "cn=service,dc=example" true) [] _
           eq_refl eq_refl).
Defined.

Lemma panic_skips_close_sequence_witness :
  handleConnectionAndSendBindDn (K := rfc4511) (E := trusting) conn0
    [ReadPacket (envelope 1 (bareRequest 0));
     ReadPacket (envelope 2 (bareRequest 2))] []
  = (Panicked, [], [EvCountBinds 1; EvBind Wire (bareRequest 0) conn0 0]) /\
  occurrences isConnClose
    (snd (handleConnectionAndSendBindDn (K := rfc4511) (E := scripted) conn0
            [ReadPacket (envelope 2 (bareRequest 2))] []))
  = 1%nat.
Proof.
  split.
  - exact (proj1 (proj1
      (panic_skips_close_sequence (K := rfc4511) (E := trusting) conn0
         [ReadPacket (envelope 1 (bareRequest 0));
          ReadPacket (envelope 2 (bareRequest 2))] []) _ _ eq_refl)).
  - exact (proj1 (proj2
      (panic_skips_close_sequence (K := rfc4511) (E := scripted) conn0
         [ReadPacket (envelope 2 (bareRequest 2))] [])
      initialSession [] _ eq_refl)).
Defined.

Lemma evaluator_raises_only_and_sees_subtrees_witness :
  In (simpleBind EmptyString "pw")
     (nodes (envelope 1 (simpleBind EmptyString "pw"))) /\
  judgeBindDnIsEmpty (envelope 1 (simpleBind EmptyString "pw")) false = true.
Proof.
  assert (Hin : In (simpleBind EmptyString "pw")
                   (nodes (envelope 1 (simpleBind EmptyString "pw"))))
    by (simpl; tauto).
  split; [exact Hin|].
  exact (proj2 (proj2 (evaluator_raises_only_and_sees_subtrees
                         (envelope 1 (simpleBind EmptyString "pw"))))
               (simpleBind EmptyString "pw") Hin eq_refl).
Defined.

